(** * Downhole collections: measurement-table queries and bounding boxes

    A shallow embedding of
    [evo/data_converters/common/objects/downhole_collection/downhole_collection.py]
    and of [evo/data_converters/common/objects/attributes.py], with
    [evo/data_converters/gef/converter/cpt.py] and the unit tables of
    [gef_spec.py] and [ags_spec.py].

    Conventions of the embedding.
    - The code computes on [float64]. The embedding is written once over
      a class [Float64] of the operations the code uses, with two
      instances: [exact], the real numbers, in which the general
      statements are proved, and [binary64], the IEEE numbers of the
      machine, in which the code is evaluated on concrete inputs.
    - A missing entry of a [pd.Series] ([NaN] or [None]) is [None].
    - A [pd.Series] is the list of its entries in row order; the three
      series handed to [_compute_hole_bounding_box] are aligned by
      position.
    - A raised exception is the [Raise] branch of [result]; where the
      error comes from code that is taken as given, it is the left
      branch of a sum. *)

From stdpp Require Import base gmap strings.
From Stdlib Require Import Reals Lra List Permutation Sorted ZArith Bool.
From Stdlib Require Import PrimFloat.
Import ListNotations.
Local Open Scope R_scope.

(** ** Exceptions *)

Inductive exn : Type :=
| ValueError (msg : string).

Inductive result (A : Type) : Type :=
| Ok (a : A)
| Raise (e : exn).
Arguments Ok {A} a.
Arguments Raise {A} e.

(** ** The arithmetic of [float64] *)

(** The operations on numbers the code uses: the constant [0.0], the
    arithmetic operators, the comparisons [<] and [<=], [sin], [cos] and
    the factor [pi / 180] of [np.deg2rad]. *)
Class Float64 (num : Type) : Type := {
  f64_zero : num;
  f64_add : num -> num -> num;
  f64_sub : num -> num -> num;
  f64_mul : num -> num -> num;
  f64_neg : num -> num;
  f64_lt : num -> num -> bool;
  f64_le : num -> num -> bool;
  f64_sin : num -> num;
  f64_cos : num -> num;
  f64_rad_per_deg : num
}.

(** *** Exact arithmetic *)

(** Real numbers stand for [float64] without rounding, infinities and
    values that are not numbers: what is proved on this instance holds
    of the code in exact arithmetic. *)

Definition Rltb (a b : R) : bool := if Rlt_dec a b then true else false.
Definition Rleb (a b : R) : bool := if Rle_dec a b then true else false.

#[export] Instance exact : Float64 R := {|
  f64_zero := 0;
  f64_add := Rplus;
  f64_sub := Rminus;
  f64_mul := Rmult;
  f64_neg := Ropp;
  f64_lt := Rltb;
  f64_le := Rleb;
  f64_sin := sin;
  f64_cos := cos;
  f64_rad_per_deg := PI / 180
|}.

(** *** Machine arithmetic *)

(** A model of the [sin] and [cos] of the C library on binary64, which
    [np.sin] and [np.cos] call: the argument is reduced by a multiple of
    [pi / 2] held in three pairs of constants, and the remainder goes
    through the polynomial kernels of fdlibm. It is accurate to the last
    place or so; the statements below rest on it at 0 and 90 degrees
    only, where [libm_values] records what it returns. *)
Module libm.

Local Open Scope float_scope.

(** The nearest integer, for [|t| < 2 ^ 51]. *)
Definition rint (t : float) : float := (t + 0x1.8p52) - 0x1.8p52.

Definition invpio2 : float := 0x1.45f306dc9c883p-1.
Definition pio2_1 : float := 0x1.921fb544p+0.
Definition pio2_1t : float := 0x1.0b4611a626331p-34.
Definition pio2_2 : float := 0x1.0b4611a6p-34.
Definition pio2_2t : float := 0x1.3198a2e037073p-69.
Definition pio2_3 : float := 0x1.3198a2ep-69.
Definition pio2_3t : float := 0x1.b839a252049c1p-104.

(** [rem_pio2 x = (fn, (y0, y1))] with [x = fn * pi / 2 + (y0 + y1)]. *)
Definition rem_pio2 (x : float) : float * (float * float) :=
  let fn := rint (x * invpio2) in
  let r1 := x - fn * pio2_1 in
  let w2 := fn * pio2_2 in
  let r2 := r1 - w2 in
  let t2 := fn * pio2_2t - ((r1 - r2) - w2) in
  let w3 := fn * pio2_3 in
  let r3 := r2 - w3 in
  let t3 := fn * pio2_3t - ((r2 - r3) - w3) in
  let y0 := r3 - t3 in
  let y1 := (r3 - y0) - t3 in
  (fn, (y0, y1)).

Definition S1 : float := -0x1.5555555555549p-3.
Definition S2 : float := 0x1.111111110f8a6p-7.
Definition S3 : float := -0x1.a01a019c161d5p-13.
Definition S4 : float := 0x1.71de357b1fe7dp-19.
Definition S5 : float := -0x1.ae5e68a2b9cebp-26.
Definition S6 : float := 0x1.5d93a5acfd57cp-33.

(** [sin (x + y)] for [|x| <= pi / 4] and a small [y]. *)
Definition kernel_sin (x y : float) : float :=
  let z := x * x in
  let v := z * x in
  let r := S2 + z * (S3 + z * (S4 + z * (S5 + z * S6))) in
  x - ((z * (0.5 * y - v * r) - y) - v * S1).

Definition C1 : float := 0x1.555555555554cp-5.
Definition C2 : float := -0x1.6c16c16c15177p-10.
Definition C3 : float := 0x1.a01a019cb159p-16.
Definition C4 : float := -0x1.27e4f809c52adp-22.
Definition C5 : float := 0x1.1ee9ebdb4b1c4p-29.
Definition C6 : float := -0x1.8fae9be8838d4p-37.

(** [cos (x + y)] for [|x| <= pi / 4] and a small [y]. *)
Definition kernel_cos (x y : float) : float :=
  let z := x * x in
  let r := z * (C1 + z * (C2 + z * (C3 + z * (C4 + z * (C5 + z * C6))))) in
  1 - (0.5 * z - (z * r - x * y)).

(** [fn mod 4] for an integer [fn]. *)
Definition quadrant (fn : float) : float := fn - 4 * rint (fn * 0.25 - 0.375).

Definition sin (x : float) : float :=
  let '(fn, (y0, y1)) := rem_pio2 x in
  let k := quadrant fn in
  if k =? 0 then kernel_sin y0 y1
  else if k =? 1 then kernel_cos y0 y1
  else if k =? 2 then - kernel_sin y0 y1
  else - kernel_cos y0 y1.

Definition cos (x : float) : float :=
  let '(fn, (y0, y1)) := rem_pio2 x in
  let k := quadrant fn in
  if k =? 0 then kernel_cos y0 y1
  else if k =? 1 then - kernel_sin y0 y1
  else if k =? 2 then - kernel_cos y0 y1
  else kernel_sin y0 y1.

End libm.

#[export] Instance binary64 : Float64 float := {|
  f64_zero := 0%float;
  f64_add := PrimFloat.add;
  f64_sub := PrimFloat.sub;
  f64_mul := PrimFloat.mul;
  f64_neg := PrimFloat.opp;
  f64_lt := PrimFloat.ltb;
  f64_le := PrimFloat.leb;
  f64_sin := libm.sin;
  f64_cos := libm.cos;
  f64_rad_per_deg := 0x1.1df46a2529d39p-6%float
|}.

(** ** The array operations of numpy the code uses *)

Module np.

Section Arrays.

Context {num : Type} {F64 : Float64 num}.

(** [np.deg2rad], [np.sin] and [np.cos], elementwise. *)
Definition deg2rad (a : list num) : list num :=
  map (fun d => f64_mul d f64_rad_per_deg) a.
Definition sin (a : list num) : list num := map f64_sin a.
Definition cos (a : list num) : list num := map f64_cos a.

(** [np.diff(a, prepend=p)]: forward differences of [p :: a]. *)
Fixpoint diff (prepend : num) (a : list num) : list num :=
  match a with
  | [] => []
  | v :: a' => f64_sub v prepend :: diff v a'
  end.

(** Running sums, started from [acc]. *)
Fixpoint cumsum_from (acc : num) (a : list num) : list num :=
  match a with
  | [] => []
  | v :: a' => f64_add acc v :: cumsum_from (f64_add acc v) a'
  end.

(** [np.cumsum]. *)
Definition cumsum (a : list num) : list num :=
  match a with
  | [] => []
  | v :: a' => v :: cumsum_from v a'
  end.

(** Elementwise product of two arrays of one length, [a * b]. *)
Fixpoint mul (a b : list num) : list num :=
  match a, b with
  | u :: a', v :: b' => f64_mul u v :: mul a' b'
  | _, _ => []
  end.

(** [-a]. *)
Definition neg (a : list num) : list num := map f64_neg a.

(** [c + a] for a scalar [c]. *)
Definition add_scalar (c : num) (a : list num) : list num := map (f64_add c) a.

(** [np.concatenate([[c], a]).min()] and [.max()]: the extremum of an
    array that is known to start with [c]. *)
Definition min (c : num) (a : list num) : num :=
  fold_left (fun m w => if f64_lt m w then m else w) a c.
Definition max (c : num) (a : list num) : num :=
  fold_left (fun m w => if f64_lt w m then m else w) a c.

End Arrays.

End np.

(** ** The data-frame operations of pandas the code uses *)

(** One row of the frame built from the three series, before and after
    [dropna]. *)
Record RawRow (num : Type) : Type := mkRawRow {
  raw_depth : option num;
  raw_dip : option num;
  raw_azimuth : option num
}.
Arguments mkRawRow {num}.
Arguments raw_depth {num}.
Arguments raw_dip {num}.
Arguments raw_azimuth {num}.

Record Row (num : Type) : Type := mkRow {
  depth : num;
  dip : num;
  azimuth : num
}.
Arguments mkRow {num}.
Arguments depth {num}.
Arguments dip {num}.
Arguments azimuth {num}.

Definition Series (num : Type) : Type := list (option num).

Module pd.

Section Frames.

Context {num : Type} {F64 : Float64 num}.

(** [pd.DataFrame({"depth": depths, "dip": dips, "azimuth": azimuths})]:
    the union of the positions of the three series, a position a series
    lacks being missing in its column. *)
Definition DataFrame (depths dips azimuths : Series num) : list (RawRow num) :=
  map (fun i => mkRawRow (nth i depths None) (nth i dips None) (nth i azimuths None))
      (seq 0 (Nat.max (length depths) (Nat.max (length dips) (length azimuths)))).

(** A row survives [dropna(subset=["depth", "dip", "azimuth"])] when its
    three values are present. *)
Definition notna (r : RawRow num) : option (Row num) :=
  match raw_depth r, raw_dip r, raw_azimuth r with
  | Some d, Some i, Some a => Some (mkRow d i a)
  | _, _, _ => None
  end.

Fixpoint dropna (df : list (RawRow num)) : list (Row num) :=
  match df with
  | [] => []
  | r :: df' =>
      match notna r with
      | Some row => row :: dropna df'
      | None => dropna df'
      end
  end.

(** [sort_values("depth")]: ascending in depth. Rows of equal depth
    keep the order they had (pandas leaves their order to the sorting
    algorithm, which sees the keys only). The default algorithm of
    pandas is not stable and may order such rows otherwise: what is
    proved below of holes that can have rows of equal depth rests on
    the result being sorted and a permutation, not on this order. *)
Fixpoint insert (r : Row num) (sorted : list (Row num)) : list (Row num) :=
  match sorted with
  | [] => [r]
  | s :: sorted' =>
      if f64_le (depth r) (depth s) then r :: s :: sorted'
      else s :: insert r sorted'
  end.

Definition sort_values (df : list (Row num)) : list (Row num) :=
  fold_right insert [] df.

End Frames.

End pd.

(** ** Bounding boxes *)

(** The dict with keys [xmin], [xmax], [ymin], [ymax], [zmin], [zmax]. *)
Record BBox (num : Type) : Type := mkBBox {
  xmin : num; xmax : num;
  ymin : num; ymax : num;
  zmin : num; zmax : num
}.
Arguments mkBBox {num}.
Arguments xmin {num}.
Arguments xmax {num}.
Arguments ymin {num}.
Arguments ymax {num}.
Arguments zmin {num}.
Arguments zmax {num}.

Section BoundingBoxes.

Context {num : Type} {F64 : Float64 num}.

(** The rows the integration runs over: lines 151 to 160. *)
Definition survey_rows (depths dips azimuths : Series num) : list (Row num) :=
  pd.sort_values (pd.dropna (pd.DataFrame depths dips azimuths)).

(** Lines 162 to 202, on the sorted frame [df]. *)
Definition integrate (collar_x collar_y collar_z : num) (df : list (Row num))
    : BBox num :=
  let depth_vals := map depth df in
  let dip_rad := np.deg2rad (map dip df) in
  let az_rad := np.deg2rad (map azimuth df) in
  let step := np.diff f64_zero depth_vals in
  let horiz := np.mul step (np.sin dip_rad) in
  let dz_down := np.mul step (np.cos dip_rad) in
  let dN := np.mul horiz (np.cos az_rad) in
  let dE := np.mul horiz (np.sin az_rad) in
  let dX := dE in
  let dY := dN in
  let dZ := np.neg dz_down in
  let x := np.add_scalar collar_x (np.cumsum dX) in
  let y := np.add_scalar collar_y (np.cumsum dY) in
  let z := np.add_scalar collar_z (np.cumsum dZ) in
  {| xmin := np.min collar_x x; xmax := np.max collar_x x;
     ymin := np.min collar_y y; ymax := np.max collar_y y;
     zmin := np.min collar_z z; zmax := np.max collar_z z |}.

Definition _compute_hole_bounding_box
    (collar_x collar_y collar_z : num) (depths dips azimuths : Series num)
    : BBox num :=
  integrate collar_x collar_y collar_z (survey_rows depths dips azimuths).

(** The builtin [min] and [max] over a generator that yields [v] first. *)
Definition py_min (v : num) (rest : list num) : num :=
  fold_left (fun m w => if f64_lt w m then w else m) rest v.
Definition py_max (v : num) (rest : list num) : num :=
  fold_left (fun m w => if f64_lt m w then w else m) rest v.

Definition _combine_bounding_boxes (bboxes : list (BBox num)) : result (list num) :=
  match bboxes with
  | [] => Raise (ValueError "bboxes list is empty")
  | b :: bs =>
      Ok [ py_min (xmin b) (map xmin bs); py_max (xmax b) (map xmax bs);
           py_min (ymin b) (map ymin bs); py_max (ymax b) (map ymax bs);
           py_min (zmin b) (map zmin bs); py_max (zmax b) (map zmax bs) ]
  end.

End BoundingBoxes.

(** ** The collection *)

(** Modelled from the spec: the adapter classes of [tables.py], which is
    not among the sources. The abstract capability
    [MeasurementTableAdapter] has two concrete variants, [DistanceTable]
    and [IntervalTable], neither a subclass of the other. *)
Inductive AdapterClass : Type :=
| MeasurementTableAdapter
| DistanceTable
| IntervalTable.

Definition issubclass (c base : AdapterClass) : bool :=
  match base, c with
  | MeasurementTableAdapter, _ => true
  | DistanceTable, DistanceTable => true
  | IntervalTable, IntervalTable => true
  | _, _ => false
  end.

(** An adapter: its class and the three queries [get_bounding_box] makes,
    each from a hole index to the series of that hole. *)
Record Adapter (num : Type) : Type := mkAdapter {
  class_of : AdapterClass;
  get_depth_values : Z -> Series num;
  get_dip_values : Z -> Series num;
  get_azimuth_values : Z -> Series num
}.
Arguments mkAdapter {num}.
Arguments class_of {num}.
Arguments get_depth_values {num}.
Arguments get_dip_values {num}.
Arguments get_azimuth_values {num}.

(** One row of [HoleCollars.df], with the columns [get_bounding_box]
    reads. *)
Record Collar (num : Type) : Type := mkCollar {
  hole_index : Z;
  hole_id : string;
  x : num;
  y : num;
  z : num
}.
Arguments mkCollar {num}.
Arguments hole_index {num}.
Arguments hole_id {num}.
Arguments x {num}.
Arguments y {num}.
Arguments z {num}.

Record DownholeCollection (num : Type) : Type := mkDownholeCollection {
  name : string;
  collars : list (Collar num);
  measurements : list (Adapter num)
}.
Arguments mkDownholeCollection {num}.
Arguments name {num}.
Arguments collars {num}.
Arguments measurements {num}.

Section Collection.

Context {num : Type} {F64 : Float64 num}.

Definition isinstance (m : Adapter num) (cls : AdapterClass) : bool :=
  issubclass (class_of m) cls.

(** [add_measurement_table] for an adapter; a [pd.DataFrame] goes through
    [MeasurementTableFactory] of [tables.py] first. *)
Definition add_measurement_table (self : DownholeCollection num)
    (input : Adapter num) : DownholeCollection num :=
  {| name := name self;
     collars := collars self;
     measurements := measurements self ++ [input] |}.

Definition get_measurement_tables (self : DownholeCollection num)
    (filter : option (list AdapterClass)) : list (Adapter num) :=
  match filter with
  | None => measurements self
  | Some classes =>
      fold_left
        (fun results m =>
           if existsb (isinstance m) classes then results ++ [m] else results)
        (measurements self) []
  end.

(** The box of one hole against one table: the body of the inner loop
    of [get_bounding_box]. *)
Definition hole_bbox (mt : Adapter num) (c : Collar num) : BBox num :=
  let depths := get_depth_values mt (hole_index c) in
  let dips := get_dip_values mt (hole_index c) in
  let azimuths := get_azimuth_values mt (hole_index c) in
  _compute_hole_bounding_box (x c) (y c) (z c) depths dips azimuths.

(** The list [bboxes] when the two loops of [get_bounding_box] end. *)
Definition collect_bboxes (collars_df : list (Collar num))
    (measurement_tables : list (Adapter num)) : list (BBox num) :=
  fold_left
    (fun bboxes mt =>
       fold_left (fun bboxes c => bboxes ++ [hole_bbox mt c]) collars_df bboxes)
    measurement_tables [].

Definition get_bounding_box (self : DownholeCollection num) : result (list num) :=
  let collars_df := collars self in
  let measurement_tables := get_measurement_tables self (Some [DistanceTable]) in
  let bboxes := collect_bboxes collars_df measurement_tables in
  match bboxes with
  | [] => Ok []
  | _ :: _ => _combine_bounding_boxes bboxes
  end.

End Collection.

(** ** Attribute export: [attributes.py] *)

Module attributes.

(** A value of a column or of a list of markers. *)
Inductive scalar : Type :=
| SFloat (v : R)
| SInt (v : Z)
| SBool (v : bool)
| SStr (v : string).

(** The payload of a series, by the kind of its dtype. *)
Inductive column : Type :=
| FloatColumn (vals : list (option R))
| IntColumn (vals : list Z)
| BoolColumn (vals : list bool)
| ObjectColumn (vals : list scalar).

(** A [pd.Series] with its [attrs] dict. *)
Record Series : Type := mkSeries {
  data : column;
  attrs : gmap string (list scalar)
}.

(** [pd.api.types.is_float_dtype]. *)
Definition is_float_dtype (series : Series) : bool :=
  match data series with
  | FloatColumn _ => true
  | _ => false
  end.

(** [pd.api.types.is_numeric_dtype]: integer, float and boolean dtypes
    are numeric, the object dtype is not. *)
Definition is_numeric_dtype (series : Series) : bool :=
  match data series with
  | FloatColumn _ | IntColumn _ | BoolColumn _ => true
  | ObjectColumn _ => false
  end.

(** A [pa.Table] of one [float64] column. *)
Record Table : Type := mkTable {
  column_name : string;
  column_data : list (option R)
}.

(** [PyArrowTableFactory.create_continuous_table], on the values of a
    float series. *)
Definition create_continuous_table (vals : list (option R)) : Table :=
  {| column_name := "data"; column_data := vals |}.

(** The object data client: [save_table] stores a table and returns its
    description, or raises. *)
Record ObjectDataClient (error TableInfo : Type) : Type := mkObjectDataClient {
  save_table : Table -> error + TableInfo
}.
Arguments mkObjectDataClient {error TableInfo}.
Arguments save_table {error TableInfo}.

Section Create.

(** The classes [FloatArray1], [NanContinuous] and [ContinuousAttribute]
    belong to the library [evo_schemas], which is not among the sources:
    their objects are of types taken as given, and [FloatArray1.from_dict]
    and the two constructors are functions taken as given, which check
    what they are handed and return an object or raise an [error]. *)
Context {error TableInfo FloatArray1 NanContinuous ContinuousAttribute : Type}.
Variable FloatArray1_from_dict : TableInfo -> error + FloatArray1.
Variable NanContinuous_init : list scalar -> error + NanContinuous.
Variable ContinuousAttribute_init :
  string -> string -> NanContinuous -> FloatArray1 -> error + ContinuousAttribute.

(** [AttributeFactory.create]: it returns an attribute or [None], or
    raises what the client or a constructor raises. The arguments of
    [ContinuousAttribute] are [key], [name], [nan_description] and
    [values]. *)
Definition create (name : string) (series : Series)
    (client : ObjectDataClient error TableInfo)
    : error + option ContinuousAttribute :=
  let nan_values_list : list scalar :=
    match attrs series !! "nan_values"%string with
    | Some markers => markers
    | None => []
    end in
  match data series with
  | FloatColumn vals =>
      let table := create_continuous_table vals in
      match save_table client table with
      | inl e => inl e
      | inr table_info =>
          match FloatArray1_from_dict table_info with
          | inl e => inl e
          | inr float_array =>
              match NanContinuous_init nan_values_list with
              | inl e => inl e
              | inr nan_description =>
                  match ContinuousAttribute_init name name nan_description
                          float_array with
                  | inl e => inl e
                  | inr attribute => inr (Some attribute)
                  end
              end
          end
      end
  | _ => inr None
  end.

End Create.

End attributes.

(** ** Specification vocabulary *)

(** [m] is an extremum of [l] for the order [le]: a member of [l] that is
    below every member. *)
Definition extremum (le : R -> R -> Prop) (m : R) (l : list R) : Prop :=
  In m l /\ Forall (le m) l.

(** The minimum and the maximum of a list, in the words of the spec. *)
Definition is_min (m : R) (l : list R) : Prop := extremum Rle m l.
Definition is_max (m : R) (l : list R) : Prop := extremum Rge m l.

(** The order [sort_values("depth")] establishes. *)
Definition le_depth (r s : Row R) : Prop := depth r <= depth s.



Section Boxes.

Context {num : Type} {F64 : Float64 num}.

(** The box that is the single point [(px, py, pz)]. *)
Definition point_box (px py pz : num) : BBox num :=
  {| xmin := px; xmax := px; ymin := py; ymax := py; zmin := pz; zmax := pz |}.

(** The box of a collar alone. *)
Definition collar_box (c : Collar num) : BBox num :=
  point_box (x c) (y c) (z c).

(** The rows of hole [c] in table [mt] that survive [dropna]. *)
Definition usable_rows (mt : Adapter num) (c : Collar num) : list (Row num) :=
  pd.dropna
    (pd.DataFrame (get_depth_values mt (hole_index c))
                  (get_dip_values mt (hole_index c))
                  (get_azimuth_values mt (hole_index c))).

(** No hole has a usable row in any distance table of the collection. *)
Definition no_usable_rows (self : DownholeCollection num) : Prop :=
  forall mt c,
    In mt (get_measurement_tables self (Some [DistanceTable])) ->
    In c (collars self) ->
    usable_rows mt c = [].


(** The six floats [get_bounding_box] returns for a box. *)
Definition as_list (b : BBox num) : list num :=
  [xmin b; xmax b; ymin b; ymax b; zmin b; zmax b].

End Boxes.

(** ** Sample inputs *)


(** One horizontal station due North at depth 10, after a row without
    dip. *)
Definition north_depths : Series R := [Some 4; Some 10].
Definition north_dips : Series R := [None; Some 90].
Definition north_azimuths : Series R := [Some 0; Some 0].

(** Two stations at the same depth 5, one vertical and one horizontal,
    in both orders. *)
Definition tied_depths : Series R := [Some 5; Some 5].
Definition tied_dips : Series R := [Some 0; Some 90].
Definition tied_dips_swapped : Series R := [Some 90; Some 0].
Definition tied_azimuths : Series R := [Some 0; Some 0].


(** Three rows out of depth order, the middle one without dip, and the
    same rows in another order. *)
Definition unsorted_rows : list (RawRow R) :=
  [ mkRawRow (Some 15) (Some 30) (Some 90);
    mkRawRow (Some 7) None (Some 0);
    mkRawRow (Some 5) (Some 0) (Some 0) ].
Definition reordered_rows : list (RawRow R) :=
  [ mkRawRow (Some 5) (Some 0) (Some 0);
    mkRawRow (Some 15) (Some 30) (Some 90);
    mkRawRow (Some 7) None (Some 0) ].

(** The boxes of three holes. *)
Definition box_a : BBox R := mkBBox 0 1 0 1 90 100.
Definition box_b : BBox R := mkBBox (-2) 0 3 4 80 95.
Definition box_c : BBox R := mkBBox 5 6 (-1) 0 99 120.

(** A distance table whose only row of every hole lacks its dip, in a
    collection of one hole with collar (1, 2, 3). *)
Definition dipless_table : Adapter R :=
  {| class_of := DistanceTable;
     get_depth_values := fun _ => [Some 5];
     get_dip_values := fun _ => [None];
     get_azimuth_values := fun _ => [Some 0] |}.

Definition dipless_collection : DownholeCollection R :=
  {| name := "dipless";
     collars := [mkCollar 0 "BH1" 1 2 3];
     measurements := [dipless_table] |}.

(** A collection of two holes and no measurement table. *)
Definition bare_collection : DownholeCollection R :=
  {| name := "bare";
     collars := [mkCollar 0 "BH1" 1 2 3; mkCollar 1 "BH2" 4 5 6];
     measurements := [] |}.

(** On machine numbers: the station of depth 10, dip 90 and azimuth 0,
    and the scenario of the spec. *)
Definition station64_depths : Series float := [Some 10%float].
Definition station64_dips : Series float := [Some 90%float].
Definition station64_azimuths : Series float := [Some 0%float].

Definition scenario64_depths : Series float := [Some 5%float; Some 15%float].
Definition scenario64_dips : Series float := [Some 0%float; Some 0%float].
Definition scenario64_azimuths : Series float := [Some 0%float; Some 0%float].

(** Sample schema classes: the description of a saved table, an array
    read off it, a sentinel descriptor that accepts floats only and
    raises [ValidationFailed] for any other marker, and an attribute of
    the four fields [create] fills. *)
Module sample_schemas.

Inductive error : Type :=
| ValidationFailed (msg : string).

Record TableInfo : Type := mkTableInfo {
  info_data : string;
  info_length : nat
}.

Record FloatArray1 : Type := mkFloatArray1 {
  array_data : string;
  array_length : nat
}.

Record NanContinuous : Type := mkNanContinuous {
  nan_values : list attributes.scalar
}.

Record ContinuousAttribute : Type := mkContinuousAttribute {
  attr_key : string;
  attr_name : string;
  nan_description : NanContinuous;
  attr_values : FloatArray1
}.

Definition FloatArray1_from_dict (table_info : TableInfo) : error + FloatArray1 :=
  inr {| array_data := info_data table_info;
         array_length := info_length table_info |}.

Definition is_float (v : attributes.scalar) : bool :=
  match v with
  | attributes.SFloat _ => true
  | _ => false
  end.

Definition NanContinuous_init (values : list attributes.scalar)
    : error + NanContinuous :=
  if forallb is_float values
  then inr {| nan_values := values |}
  else inl (ValidationFailed "values must be floats").

Definition ContinuousAttribute_init (key name : string)
    (nan_description : NanContinuous) (values : FloatArray1)
    : error + ContinuousAttribute :=
  inr {| attr_key := key; attr_name := name;
         nan_description := nan_description; attr_values := values |}.

Definition create :=
  attributes.create FloatArray1_from_dict NanContinuous_init
    ContinuousAttribute_init.

End sample_schemas.

(** A client that stores every table under one 64-digit reference, an
    integer column with a marker attached, and a float column with a
    float marker and with an integer marker. *)
Definition sample_client
    : attributes.ObjectDataClient sample_schemas.error sample_schemas.TableInfo :=
  {| attributes.save_table := fun table =>
       inr {| sample_schemas.info_data := "0f0f0f0f0f0f0f0f0f0f0f0f0f0f0f0f0f0f0f0f0f0f0f0f0f0f0f0f0f0f0f0f";
              sample_schemas.info_length :=
                length (attributes.column_data table) |} |}.

Definition int_series : attributes.Series :=
  {| attributes.data := attributes.IntColumn [1%Z; 2%Z; (-999)%Z];
     attributes.attrs := {[ "nan_values"%string := [attributes.SInt (-999)] ]} |}.

Definition float_series : attributes.Series :=
  {| attributes.data := attributes.FloatColumn [Some 1; None; Some (-999)];
     attributes.attrs := {[ "nan_values"%string := [attributes.SFloat (-999)] ]} |}.

Definition float_series_int_marker : attributes.Series :=
  {| attributes.data := attributes.FloatColumn [Some 1; None; Some (-999)];
     attributes.attrs := {[ "nan_values"%string := [attributes.SInt (-999)] ]} |}.



(** ** Further vocabulary *)

(** [outer] encloses [inner]: on each axis the extent of [inner] lies
    within that of [outer]. *)
Definition encloses (outer inner : BBox R) : Prop :=
  xmin outer <= xmin inner /\ xmax inner <= xmax outer /\
  ymin outer <= ymin inner /\ ymax inner <= ymax outer /\
  zmin outer <= zmin inner /\ zmax inner <= zmax outer.

(** The box [b] moved by [(a, b, c)]. *)
Definition translate (ta tb tc : R) (b : BBox R) : BBox R :=
  {| xmin := xmin b + ta; xmax := xmax b + ta;
     ymin := ymin b + tb; ymax := ymax b + tb;
     zmin := zmin b + tc; zmax := zmax b + tc |}.

(** ** The trajectory of a hole: lines 162 to 193 *)

Section Trajectory.

Context {num : Type} {F64 : Float64 num}.

(** [step], [dX], [dY] and [dZ] of a sorted frame, the first step being
    measured from [prev]. *)
Definition step_from (prev : num) (df : list (Row num)) : list num :=
  np.diff prev (map depth df).

Definition horiz_from (prev : num) (df : list (Row num)) : list num :=
  np.mul (step_from prev df) (np.sin (np.deg2rad (map dip df))).

Definition dz_down_from (prev : num) (df : list (Row num)) : list num :=
  np.mul (step_from prev df) (np.cos (np.deg2rad (map dip df))).

Definition dX_from (prev : num) (df : list (Row num)) : list num :=
  np.mul (horiz_from prev df) (np.sin (np.deg2rad (map azimuth df))).

Definition dY_from (prev : num) (df : list (Row num)) : list num :=
  np.mul (horiz_from prev df) (np.cos (np.deg2rad (map azimuth df))).

Definition dZ_from (prev : num) (df : list (Row num)) : list num :=
  np.neg (dz_down_from prev df).

(** The arrays of the code: the collar is at measured depth 0. *)
Definition step (df : list (Row num)) : list num := step_from f64_zero df.
Definition dX (df : list (Row num)) : list num := dX_from f64_zero df.
Definition dY (df : list (Row num)) : list num := dY_from f64_zero df.
Definition dZ (df : list (Row num)) : list num := dZ_from f64_zero df.

(** [xs], [ys] and [zs]: the stations of the trajectory, collar first. *)
Definition xs (collar_x : num) (df : list (Row num)) : list num :=
  collar_x :: np.add_scalar collar_x (np.cumsum (dX df)).
Definition ys (collar_y : num) (df : list (Row num)) : list num :=
  collar_y :: np.add_scalar collar_y (np.cumsum (dY df)).
Definition zs (collar_z : num) (df : list (Row num)) : list num :=
  collar_z :: np.add_scalar collar_z (np.cumsum (dZ df)).

End Trajectory.

(** ** Building a collection: [__init__] and [add_measurement_table] *)

(** What [add_measurement_table] is given: a [pd.DataFrame] or an
    adapter. *)
Inductive TableInput (frame num : Type) : Type :=
| FromDataFrame (df : frame)
| FromAdapter (adapter : Adapter num).
Arguments FromDataFrame {frame num} df.
Arguments FromAdapter {frame num} adapter.

Module init.

Section Construction.

(** [MeasurementTableFactory.create] and [ColumnMapping()] belong to
    files that are not among the sources: they are taken as given, the
    factory returning an adapter or raising an [error]. *)
Context {num frame mapping error : Type}.
Variable create : frame -> mapping -> error + Adapter num.
Variable ColumnMapping : mapping.

(** The adapter an input stands for: the first four lines of
    [add_measurement_table]. In [column_mapping or ColumnMapping()] a
    mapping that is given counts as true. *)
Definition adapter_of (input : TableInput frame num)
    (column_mapping : option mapping) : error + Adapter num :=
  match input with
  | FromDataFrame df =>
      create df (match column_mapping with
                 | Some cm => cm
                 | None => ColumnMapping
                 end)
  | FromAdapter adapter => inr adapter
  end.

Definition add_measurement_table (self : DownholeCollection num)
    (input : TableInput frame num) (column_mapping : option mapping)
    : error + DownholeCollection num :=
  match adapter_of input column_mapping with
  | inl e => inl e
  | inr adapter =>
      inr {| name := name self;
             collars := collars self;
             measurements := measurements self ++ [adapter] |}
  end.

(** The loop of [__init__], from the [state] reached so far: an error
    raised ends it. *)
Definition add_all (state : error + DownholeCollection num)
    (measurements : list (TableInput frame num))
    (column_mapping : option mapping) : error + DownholeCollection num :=
  fold_left
    (fun state m =>
       match state with
       | inl e => inl e
       | inr self => add_measurement_table self m column_mapping
       end)
    measurements state.

Definition __init__ (collars : list (Collar num)) (name : string)
    (measurements : option (list (TableInput frame num)))
    (column_mapping : option mapping) : error + DownholeCollection num :=
  let self := {| name := name; collars := collars; measurements := [] |} in
  match measurements with
  | Some (m :: ms) => add_all (inr self) (m :: ms) column_mapping
  | _ => inr self
  end.

End Construction.

End init.

(** ** Further sample inputs *)

(** An interval table without rows. *)
Definition empty_interval_table : Adapter R :=
  {| class_of := IntervalTable;
     get_depth_values := fun _ => [];
     get_dip_values := fun _ => [];
     get_azimuth_values := fun _ => [] |}.

(** A factory that accepts the frames with an even number of rows, as
    distance tables without rows. *)
Definition even_factory (df : nat) (cm : unit) : string + Adapter R :=
  if Nat.even df
  then inr {| class_of := DistanceTable;
              get_depth_values := fun _ => [];
              get_dip_values := fun _ => [];
              get_azimuth_values := fun _ => [] |}
  else inl "odd"%string.

(** ** CPT data with GEF headers: [gef/converter/cpt.py] *)

Module cpt.

(** What [gef_headers] can be given: [None], a [dict], or an object of
    another type. *)
Inductive value (dict other : Type) : Type :=
| PyNone
| PyDict (d : dict)
| PyOther (o : other).
Arguments PyNone {dict other}.
Arguments PyDict {dict other} d.
Arguments PyOther {dict other} o.

Inductive exn : Type :=
| TypeError (msg : string).

(** A [CPTData]: the fields of the frozen dataclass it extends, and the
    attribute [_gef_headers], absent until it is set. *)
Record CPTData (base dict other : Type) : Type := mkCPTData {
  fields : base;
  _gef_headers : option (value dict other)
}.
Arguments mkCPTData {base dict other}.
Arguments fields {base dict other}.
Arguments _gef_headers {base dict other}.

Section CPT.

Context {base dict other file : Type}.

(** The constructor of the dataclass applied to the fields of an object
    of it, and the XML reader of pygef: both of a library, taken as
    given. *)
Variable rebuild : base -> base.
Variable base_read_cpt_xml : file -> list base.

Definition __init__ (base_fields : base) (gef_headers : value dict other)
    : CPTData base dict other :=
  {| fields := base_fields; _gef_headers := Some gef_headers |}.

(** The property [gef_headers]: [getattr(self, "_gef_headers", None)]. *)
Definition gef_headers (self : CPTData base dict other) : value dict other :=
  match _gef_headers self with
  | Some v => v
  | None => PyNone
  end.

(** The setter of the property. *)
Definition set_gef_headers (self : CPTData base dict other)
    (v : value dict other) : exn + CPTData base dict other :=
  match v with
  | PyOther _ => inl (TypeError "gef_headers must be a dict or None")
  | _ => inr {| fields := fields self; _gef_headers := Some v |}
  end.

Definition from_base (b : base) (gef_headers : value dict other)
    : CPTData base dict other :=
  __init__ (rebuild b) gef_headers.

Definition read_cpt_xml (f : file) : list (CPTData base dict other) :=
  match base_read_cpt_xml f with
  | [] => []
  | base_cpt_data => map (fun cpt_data => from_base cpt_data PyNone) base_cpt_data
  end.

End CPT.

End cpt.

(** ** The unit tables: [gef_spec.py] and [ags_spec.py] *)

(** A dict written as a literal: of two items with one key the later
    one stays. *)
Definition dict_literal (items : list (string * string)) : gmap string string :=
  fold_left (fun d item => <[item.1 := item.2]> d) items ∅.

Module gef_spec.

Definition MEASUREMENT_UNITS_items : list (string * string) :=
  [ ("penetrationLength", "m");
    ("coneResistance", "MPa");
    ("localFriction", "MPa");
    ("frictionRatio", "%");
    ("porePressureU1", "MPa");
    ("porePressureU2", "MPa");
    ("porePressureU3", "MPa");
    ("inclinationResultant", "degrees");
    ("inclinationNS", "degrees");
    ("inclinationEW", "degrees");
    ("depth", "m");
    ("elapsedTime", "s");
    ("correctedConeResistance", "MPa");
    ("netConeResistance", "MPa");
    ("poreRatio", "");
    ("coneResistanceRatio", "");
    ("soilDensity", "kN/m3");
    ("porePressure", "MPa");
    ("verticalPorePressureTotal", "MPa");
    ("verticalPorePressureEffective", "MPa");
    ("inclinationX", "degrees");
    ("inclinationY", "degrees");
    ("electricalConductivity", "S/m");
    ("magneticFieldStrengthX", "nT");
    ("magneticFieldStrengthY", "nT");
    ("magneticFieldStrengthZ", "nT");
    ("magneticFieldStrengthTotal", "nT");
    ("magneticInclination", "degrees");
    ("magneticDeclination", "degrees") ]%string.

Definition MEASUREMENT_UNITS : gmap string string :=
  dict_literal MEASUREMENT_UNITS_items.

End gef_spec.

Module ags_spec.

Definition MEASUREMENT_UNITS_items : list (string * string) :=
  [ ("SCPT_DPTH", "m");
    ("SCPT_RES", "MPa");
    ("SCPT_FRES", "MPa");
    ("SCPT_PWP1", "MPa");
    ("SCPT_PWP2", "MPa");
    ("SCPT_PWP3", "MPa");
    ("SCPT_CON", "uS / cm");
    ("SCPT_TEMP", "celsius");
    ("SCPT_SLP1", "degrees");
    ("SCPT_SLP2", "degrees");
    ("SCPT_REDX", "mV");
    ("SCPT_MAGT", "nT");
    ("SCPT_MAGX", "nT");
    ("SCPT_MAGY", "nT");
    ("SCPT_MAGZ", "nT");
    ("SCPT_NGAM", "Hz");
    ("SCPT_QT", "MPa");
    ("SCPT_FT", "MPa");
    ("SCPT_QE", "MPa");
    ("SCPT_BDEN", "Mg / m ** 3");
    ("SCPT_CPO", "kPa");
    ("SCPT_CPOD", "kPa");
    ("SCPT_QNET", "MPa");
    ("SCPT_EXPP", "MPa");
    ("SCPT_ISPP", "MPa");
    ("SCPP_TOP", "m");
    ("SCPP_BASE", "m");
    ("SCPP_CSU", "kPa");
    ("SCPP_CPHI", "degrees");
    ("SCDG_DPTH", "m");
    ("SCDG_PWPI", "MPa");
    ("SCDG_PWPE", "MPa");
    ("SCDG_T", "s");
    ("SCDG_CV", "m ** 2 / year");
    ("SCDG_CH", "m ** 2 / year") ]%string.

Definition MEASUREMENT_UNITS : gmap string string :=
  dict_literal MEASUREMENT_UNITS_items.

End ags_spec.

(** ** Proof steps *)

(** Settle the comparisons of [np.min] and [np.max] on concrete numbers. *)
Ltac case_Rlt :=
  cbn; unfold Rltb;
  repeat match goal with
         | |- context [Rlt_dec ?a ?b] => destruct (Rlt_dec a b)
         end;
  lra.

(** Take apart what is known of a chain of calls, each of which returns
    or raises. *)
Ltac break_calls :=
  repeat match goal with
         | H : exists _, _ |- _ => destruct H
         | H : _ /\ _ |- _ => destruct H
         | H : _ \/ _ |- _ => destruct H
         | H : inr _ = inr _ |- _ => inversion H; subst; clear H
         | H : inl _ = inl _ |- _ => inversion H; subst; clear H
         | H : Some _ = Some _ |- _ => inversion H; subst; clear H
         end.

(** ** Facts that hold in every arithmetic *)

Section AnyArithmetic.

Context {num : Type} {F64 : Float64 num}.

Lemma filter_loop (classes : list AdapterClass) (ms acc : list (Adapter num)) :
  fold_left
    (fun results m =>
       if existsb (isinstance m) classes then results ++ [m] else results)
    ms acc
  = acc ++ List.filter (fun m => existsb (isinstance m) classes) ms.
Proof.
  revert acc. induction ms as [|m ms IH]; intros acc; simpl.
  - now rewrite app_nil_r.
  - rewrite IH. destruct (existsb (isinstance m) classes); simpl.
    + now rewrite <- app_assoc.
    + reflexivity.
Qed.

Lemma get_measurement_tables_filter (self : DownholeCollection num)
    (classes : list AdapterClass) :
  get_measurement_tables self (Some classes)
  = List.filter (fun m => existsb (isinstance m) classes) (measurements self).
Proof. unfold get_measurement_tables. now rewrite filter_loop. Qed.

Lemma inner_loop (mt : Adapter num) (cs : list (Collar num)) (acc : list (BBox num)) :
  fold_left (fun bboxes c => bboxes ++ [hole_bbox mt c]) cs acc
  = acc ++ map (hole_bbox mt) cs.
Proof.
  revert acc. induction cs as [|c cs IH]; intros acc; simpl.
  - now rewrite app_nil_r.
  - rewrite IH. now rewrite <- app_assoc.
Qed.

Lemma outer_loop (cs : list (Collar num)) (mts : list (Adapter num)) (acc : list (BBox num)) :
  fold_left
    (fun bboxes mt =>
       fold_left (fun bboxes c => bboxes ++ [hole_bbox mt c]) cs bboxes)
    mts acc
  = acc ++ flat_map (fun mt => map (hole_bbox mt) cs) mts.
Proof.
  revert acc. induction mts as [|mt mts IH]; intros acc; simpl.
  - now rewrite app_nil_r.
  - rewrite IH, inner_loop. now rewrite <- app_assoc.
Qed.

Lemma collect_bboxes_flat_map (cs : list (Collar num)) (mts : list (Adapter num)) :
  collect_bboxes cs mts = flat_map (fun mt => map (hole_bbox mt) cs) mts.
Proof. unfold collect_bboxes. now rewrite outer_loop. Qed.

(** The boxes are none exactly when there is no table or no collar. *)
Lemma collect_bboxes_nil (cs : list (Collar num)) (mts : list (Adapter num)) :
  collect_bboxes cs mts = [] <-> mts = [] \/ cs = [].
Proof.
  rewrite collect_bboxes_flat_map. split.
  - destruct mts as [|mt mts]; [now left|].
    destruct cs as [|c cs]; [now right|]. discriminate.
  - intros [-> | ->]; [reflexivity|].
    induction mts as [|mt mts IH]; [reflexivity | exact IH].
Qed.

Lemma get_bounding_box_unfold (self : DownholeCollection num) :
  get_bounding_box self =
    match collect_bboxes (collars self)
            (get_measurement_tables self (Some [DistanceTable])) with
    | [] => Ok []
    | b :: bs => _combine_bounding_boxes (b :: bs)
    end.
Proof. unfold get_bounding_box. now destruct (collect_bboxes _ _). Qed.

Lemma get_bounding_box_empty_iff (self : DownholeCollection num) :
  get_bounding_box self = Ok [] <->
  get_measurement_tables self (Some [DistanceTable]) = [] \/ collars self = [].
Proof.
  rewrite get_bounding_box_unfold, <- collect_bboxes_nil.
  destruct (collect_bboxes _ _) as [|b bs]; split; intros H;
    try reflexivity; try discriminate.
Qed.

(** The raw row of a complete row. *)
Lemma notna_Some (r : RawRow num) (row : Row num) :
  pd.notna r = Some row <->
  r = mkRawRow (Some (depth row)) (Some (dip row)) (Some (azimuth row)).
Proof.
  destruct r as [[d|] [i|] [a|]], row as [d' i' a']; unfold pd.notna; simpl;
    split; intros H; try discriminate; now inversion H.
Qed.

Lemma dropna_In (df : list (RawRow num)) (row : Row num) :
  In row (pd.dropna df) <->
  In (mkRawRow (Some (depth row)) (Some (dip row)) (Some (azimuth row))) df.
Proof.
  induction df as [|r df IH]; simpl; [tauto|].
  destruct (pd.notna r) as [row'|] eqn:E; simpl; rewrite IH.
  - apply notna_Some in E. split; intros [H | H]; auto; left.
    + now subst.
    + rewrite E in H. inversion H. now destruct row, row'; simpl in *; subst.
  - split; [now right|]. intros [H | H]; [|exact H].
    apply notna_Some in H. congruence.
Qed.

Lemma dropna_Permutation (df df' : list (RawRow num)) :
  Permutation df df' -> Permutation (pd.dropna df) (pd.dropna df').
Proof.
  induction 1 as [| r l l' _ IH | r s l | l l' l'' _ IH1 _ IH2]; simpl.
  - constructor.
  - destruct (pd.notna r); [now constructor | exact IH].
  - destruct (pd.notna r), (pd.notna s);
      first [apply perm_swap | apply Permutation_refl].
  - now transitivity (pd.dropna l').
Qed.

(** The frame of the columns of [rs] is [rs]. *)
Lemma DataFrame_columns (rs : list (RawRow num)) :
  pd.DataFrame (map raw_depth rs) (map raw_dip rs) (map raw_azimuth rs) = rs.
Proof.
  unfold pd.DataFrame. rewrite !length_map, !Nat.max_id.
  induction rs as [|r rs IH]; [reflexivity|].
  simpl. f_equal; [now destruct r|].
  rewrite <- seq_shift, map_map. exact IH.
Qed.

(** With no row left, the trajectory is the collar alone. *)
Lemma integrate_nil (cx cy cz : num) : integrate cx cy cz [] = point_box cx cy cz.
Proof. reflexivity. Qed.

Lemma compute_without_rows (cx cy cz : num) (depths dips azimuths : Series num) :
  pd.dropna (pd.DataFrame depths dips azimuths) = [] ->
  _compute_hole_bounding_box cx cy cz depths dips azimuths = point_box cx cy cz.
Proof.
  intros H. unfold _compute_hole_bounding_box, survey_rows. rewrite H.
  apply integrate_nil.
Qed.

Lemma filter_sublist (P : Adapter num -> bool) (l : list (Adapter num)) :
  sublist (List.filter P l) l.
Proof.
  induction l as [|m l IH]; simpl; [constructor|].
  destruct (P m); now constructor.
Qed.

(** C9. [_combine_bounding_boxes] raises (a [ValueError]) exactly on the
    empty list; on a non-empty list it returns six floats; and
    [get_bounding_box] never raises that error, whatever the collection:
    when the loops produced no box it returns the empty list. *)
Theorem combine_raises_iff_empty :
  (forall l : list (BBox num),
      (exists e, _combine_bounding_boxes l = Raise e) <-> l = []) /\
  _combine_bounding_boxes [] = Raise (ValueError "bboxes list is empty") /\
  (forall l : list (BBox num),
      l <> [] ->
      exists x0 x1 y0 y1 z0 z1,
        _combine_bounding_boxes l = Ok [x0; x1; y0; y1; z0; z1]) /\
  (forall (self : DownholeCollection num) (e : exn),
      get_bounding_box self <> Raise e) /\
  (forall self : DownholeCollection num,
      collect_bboxes (collars self)
        (get_measurement_tables self (Some [DistanceTable])) = [] ->
      get_bounding_box self = Ok []).
Proof.
  split; [|split; [|split; [|split]]].
  - intros l. split.
    + intros [e He]. destruct l; [reflexivity | discriminate].
    + intros ->. eexists. reflexivity.
  - reflexivity.
  - intros l Hne. destruct l as [|b bs]; [congruence|].
    do 6 eexists. reflexivity.
  - intros self e. rewrite get_bounding_box_unfold.
    destruct (collect_bboxes _ _); discriminate.
  - intros self H. rewrite get_bounding_box_unfold, H. reflexivity.
Qed.

(** C5. A collection without measurement tables has the empty list as its
    bounding box, and no error. *)
Theorem get_bounding_box_no_measurements (self : DownholeCollection num) :
  measurements self = [] ->
  get_bounding_box self = Ok [].
Proof.
  intros H. rewrite get_bounding_box_unfold, get_measurement_tables_filter, H.
  reflexivity.
Qed.

(** C7. Without a filter the measurement list is returned as it is. With
    a list of classes the result is the subsequence, in insertion order,
    of the adapters that are instances of one of the classes; it is the
    empty list when no adapter is; and with [DistanceTable] alone it holds
    no [IntervalTable]. *)
Theorem get_measurement_tables_filtered (self : DownholeCollection num) :
  get_measurement_tables self None = measurements self /\
  (forall classes : list AdapterClass,
      get_measurement_tables self (Some classes)
      = List.filter (fun m => existsb (isinstance m) classes) (measurements self) /\
      sublist (get_measurement_tables self (Some classes)) (measurements self) /\
      (forall m : Adapter num,
          In m (get_measurement_tables self (Some classes)) <->
          In m (measurements self) /\
          exists cls, In cls classes /\ isinstance m cls = true) /\
      ((forall m cls, In m (measurements self) -> In cls classes ->
                      isinstance m cls = false) ->
       get_measurement_tables self (Some classes) = [])) /\
  Forall (fun m => class_of m = DistanceTable /\ isinstance m IntervalTable = false)
         (get_measurement_tables self (Some [DistanceTable])).
Proof.
  split; [reflexivity | split].
  - intros classes. rewrite get_measurement_tables_filter.
    split; [reflexivity | split; [apply filter_sublist | split]].
    + intros m. rewrite filter_In, existsb_exists. reflexivity.
    + intros Hnone.
      induction (measurements self) as [|m ms IH]; simpl; [reflexivity|].
      destruct (existsb (isinstance m) classes) eqn:E.
      * apply existsb_exists in E. destruct E as (cls & Hcls & Hinst).
        rewrite (Hnone m cls) in Hinst; [discriminate | now left | exact Hcls].
      * apply IH. intros m' cls Hm'. apply Hnone. now right.
  - rewrite get_measurement_tables_filter. apply Forall_forall.
    intros m Hm. apply filter_In in Hm. destruct Hm as [_ Hm].
    unfold isinstance in *. simpl in Hm.
    destruct (class_of m); simpl in *; try discriminate. now split.
Qed.

End AnyArithmetic.

(** A single box combines to six floats. *)
Lemma combine_single_box :
  exists x0 x1 y0 y1 z0 z1,
    _combine_bounding_boxes [box_a] = Ok [x0; x1; y0; y1; z0; z1].
Proof.
  apply (proj1 (proj2 (proj2 combine_raises_iff_empty)) [box_a]).
  discriminate.
Defined.

(** Two collars and no table. *)
Lemma get_bounding_box_bare : get_bounding_box bare_collection = Ok [].
Proof.
  apply (get_bounding_box_no_measurements bare_collection). reflexivity.
Defined.

(** A collection whose only table is a distance table has no interval
    table. *)
Lemma interval_filter_on_dipless :
  get_measurement_tables dipless_collection (Some [IntervalTable]) = [].
Proof.
  apply (proj2 (proj2 (proj2
           (proj1 (proj2 (get_measurement_tables_filtered dipless_collection))
              [IntervalTable])))).
  intros m cls [<- | []] [<- | []]. reflexivity.
Defined.

(** ** Folding a choice function over a list yields an extremum *)

Section FoldExtremum.

Variable le : R -> R -> Prop.
Variable pick : R -> R -> R.
Hypothesis le_refl : forall a, le a a.
Hypothesis le_trans : forall a b c, le a b -> le b c -> le a c.
Hypothesis le_antisym : forall a b, le a b -> le b a -> a = b.
Hypothesis pick_choice : forall m w, pick m w = m \/ pick m w = w.
Hypothesis pick_l : forall m w, le (pick m w) m.
Hypothesis pick_r : forall m w, le (pick m w) w.

Lemma fold_pick_below_acc (rest : list R) (v : R) :
  le (fold_left pick rest v) v.
Proof using le_refl le_trans pick_l.
  revert v. induction rest as [|w rest IH]; intros v; simpl.
  - apply le_refl.
  - eapply le_trans; [apply IH | apply pick_l].
Qed.

Lemma fold_pick_below_all (rest : list R) (v : R) :
  Forall (le (fold_left pick rest v)) rest.
Proof using le_refl le_trans pick_l pick_r.
  revert v. induction rest as [|w rest IH]; intros v; simpl; constructor.
  - eapply le_trans; [apply fold_pick_below_acc | apply pick_r].
  - apply IH.
Qed.

Lemma fold_pick_member (rest : list R) (v : R) :
  In (fold_left pick rest v) (v :: rest).
Proof using pick_choice.
  revert v. induction rest as [|w rest IH]; intros v; simpl.
  - now left.
  - destruct (IH (pick v w)) as [H | H].
    + rewrite <- H.
      destruct (pick_choice v w) as [E | E]; rewrite E; simpl;
        [left | right; left]; reflexivity.
    + simpl. right. right. exact H.
Qed.

Lemma fold_pick_extremum (rest : list R) (v : R) :
  extremum le (fold_left pick rest v) (v :: rest).
Proof using le_refl le_trans pick_choice pick_l pick_r.
  split.
  - apply fold_pick_member.
  - constructor; [apply fold_pick_below_acc | apply fold_pick_below_all].
Qed.

Lemma extremum_unique (l l' : list R) (m m' : R) :
  (forall v, In v l <-> In v l') ->
  extremum le m l -> extremum le m' l' -> m = m'.
Proof using le_antisym.
  intros Hmem [Hin Hall] [Hin' Hall'].
  rewrite Forall_forall in Hall, Hall'.
  apply le_antisym.
  - apply Hall. now apply Hmem.
  - apply Hall'. now apply Hmem.
Qed.

End FoldExtremum.

(** ** The four extremum functions *)

Lemma py_min_spec (v : R) (rest : list R) : is_min (py_min v rest) (v :: rest).
Proof.
  apply fold_pick_extremum; cbn; unfold Rltb; intros.
  - lra.
  - lra.
  - destruct (Rlt_dec w m); auto.
  - destruct (Rlt_dec w m); lra.
  - destruct (Rlt_dec w m); lra.
Qed.

Lemma py_max_spec (v : R) (rest : list R) : is_max (py_max v rest) (v :: rest).
Proof.
  apply fold_pick_extremum; cbn; unfold Rltb; intros.
  - lra.
  - lra.
  - destruct (Rlt_dec m w); auto.
  - destruct (Rlt_dec m w); lra.
  - destruct (Rlt_dec m w); lra.
Qed.

Lemma np_min_spec (c : R) (a : list R) : is_min (np.min c a) (c :: a).
Proof.
  apply fold_pick_extremum; cbn; unfold Rltb; intros.
  - lra.
  - lra.
  - destruct (Rlt_dec m w); auto.
  - destruct (Rlt_dec m w); lra.
  - destruct (Rlt_dec m w); lra.
Qed.

Lemma np_max_spec (c : R) (a : list R) : is_max (np.max c a) (c :: a).
Proof.
  apply fold_pick_extremum; cbn; unfold Rltb; intros.
  - lra.
  - lra.
  - destruct (Rlt_dec w m); auto.
  - destruct (Rlt_dec w m); lra.
  - destruct (Rlt_dec w m); lra.
Qed.

Lemma is_min_unique_mem (l l' : list R) (m m' : R) :
  (forall v, In v l <-> In v l') -> is_min m l -> is_min m' l' -> m = m'.
Proof. apply extremum_unique. intros; lra. Qed.

Lemma is_max_unique_mem (l l' : list R) (m m' : R) :
  (forall v, In v l <-> In v l') -> is_max m l -> is_max m' l' -> m = m'.
Proof. apply extremum_unique. intros; lra. Qed.

Lemma Permutation_mem {A : Type} (l l' : list A) :
  Permutation l l' -> forall v, In v l <-> In v l'.
Proof.
  intros P v. split; apply Permutation_in; [exact P | symmetry; exact P].
Qed.

Lemma is_min_unique (l l' : list R) (m m' : R) :
  Permutation l l' -> is_min m l -> is_min m' l' -> m = m'.
Proof. intros P. apply is_min_unique_mem. now apply Permutation_mem. Qed.

Lemma is_max_unique (l l' : list R) (m m' : R) :
  Permutation l l' -> is_max m l -> is_max m' l' -> m = m'.
Proof. intros P. apply is_max_unique_mem. now apply Permutation_mem. Qed.

Lemma is_min_below (m : R) (l : list R) (v : R) : is_min m l -> In v l -> m <= v.
Proof. intros [_ H] Hin. rewrite Forall_forall in H. now apply H. Qed.

Lemma is_max_above (m : R) (l : list R) (v : R) : is_max m l -> In v l -> v <= m.
Proof. intros [_ H] Hin. rewrite Forall_forall in H. apply Rge_le. now apply H. Qed.

(** ** [_combine_bounding_boxes] *)

(** The result of combining a non-empty list, with its six components
    characterised. *)
Lemma combine_spec (l : list (BBox R)) :
  l <> [] ->
  exists x0 x1 y0 y1 z0 z1,
    _combine_bounding_boxes l = Ok [x0; x1; y0; y1; z0; z1] /\
    is_min x0 (map xmin l) /\ is_max x1 (map xmax l) /\
    is_min y0 (map ymin l) /\ is_max y1 (map ymax l) /\
    is_min z0 (map zmin l) /\ is_max z1 (map zmax l).
Proof.
  destruct l as [|b bs]; [congruence | intros _].
  do 6 eexists. split; [reflexivity|].
  simpl. repeat split; first [apply py_min_spec | apply py_max_spec].
Qed.

(** Lists with the same boxes combine to the same result. *)
Lemma combine_same_members (l l' : list (BBox R)) :
  (forall b, In b l <-> In b l') ->
  _combine_bounding_boxes l = _combine_bounding_boxes l'.
Proof.
  intros Hmem.
  destruct l as [|b bs]; destruct l' as [|b' bs'].
  - reflexivity.
  - exfalso. apply (proj2 (Hmem b')). now left.
  - exfalso. apply (proj1 (Hmem b)). now left.
  - destruct (combine_spec (b :: bs))
      as (x0 & x1 & y0 & y1 & z0 & z1 & E & A1 & A2 & A3 & A4 & A5 & A6);
      [discriminate|].
    destruct (combine_spec (b' :: bs'))
      as (x0' & x1' & y0' & y1' & z0' & z1' & E' & B1 & B2 & B3 & B4 & B5 & B6);
      [discriminate|].
    assert (Hmap : forall (f : BBox R -> R) v,
               In v (map f (b :: bs)) <-> In v (map f (b' :: bs'))).
    { intros f v. rewrite !in_map_iff.
      split; intros (c & Hc & Hin); exists c; (split; [exact Hc|]);
        now apply Hmem. }
    rewrite E, E'.
    rewrite (is_min_unique_mem _ _ _ _ (Hmap xmin) A1 B1).
    rewrite (is_max_unique_mem _ _ _ _ (Hmap xmax) A2 B2).
    rewrite (is_min_unique_mem _ _ _ _ (Hmap ymin) A3 B3).
    rewrite (is_max_unique_mem _ _ _ _ (Hmap ymax) A4 B4).
    rewrite (is_min_unique_mem _ _ _ _ (Hmap zmin) A5 B5).
    rewrite (is_max_unique_mem _ _ _ _ (Hmap zmax) A6 B6).
    reflexivity.
Qed.

Lemma combine_perm (l l' : list (BBox R)) :
  Permutation l l' -> _combine_bounding_boxes l = _combine_bounding_boxes l'.
Proof. intros P. apply combine_same_members. now apply Permutation_mem. Qed.

(** C6. For a non-empty list of boxes, [_combine_bounding_boxes] gives
    the same result on every permutation of the list, in particular
    [combine [a; b; c] = combine [c; a; b]], and its result lists the
    minimum of the [xmin], the maximum of the [xmax], and likewise for
    [y] and [z]. Validity of the boxes is not needed. *)
Theorem combine_bounding_boxes_permutation (l l' : list (BBox R)) :
  l <> [] ->
  Permutation l l' ->
  _combine_bounding_boxes l = _combine_bounding_boxes l' /\
  (forall a b c : BBox R,
      _combine_bounding_boxes [a; b; c] = _combine_bounding_boxes [c; a; b]) /\
  exists x0 x1 y0 y1 z0 z1,
    _combine_bounding_boxes l = Ok [x0; x1; y0; y1; z0; z1] /\
    is_min x0 (map xmin l) /\ is_max x1 (map xmax l) /\
    is_min y0 (map ymin l) /\ is_max y1 (map ymax l) /\
    is_min z0 (map zmin l) /\ is_max z1 (map zmax l).
Proof.
  intros Hne P. split; [|split].
  - now apply combine_perm.
  - intros a b c. apply combine_perm.
    change [c; a; b] with ([c] ++ [a; b]).
    change [a; b; c] with ([a; b] ++ [c]).
    apply Permutation_app_comm.
  - now apply combine_spec.
Qed.

(** Three boxes combined in two orders. *)
Lemma combine_bounding_boxes_sample :
  _combine_bounding_boxes [box_a; box_b; box_c]
  = _combine_bounding_boxes [box_c; box_a; box_b].
Proof.
  apply (combine_bounding_boxes_permutation
           [box_a; box_b; box_c] [box_c; box_a; box_b]).
  - discriminate.
  - apply Permutation_sym.
    apply (Permutation_cons_app [box_a; box_b] []). reflexivity.
Defined.

(** ** [sort_values] *)

Lemma insert_Permutation (r : Row R) (l : list (Row R)) :
  Permutation (pd.insert r l) (r :: l).
Proof.
  induction l as [|s l IH]; simpl; [reflexivity|].
  unfold Rleb. destruct (Rle_dec (depth r) (depth s)); [reflexivity|].
  rewrite IH. apply perm_swap.
Qed.

Lemma sort_values_Permutation (l : list (Row R)) :
  Permutation (pd.sort_values l) l.
Proof.
  induction l as [|r l IH]; simpl; [reflexivity|].
  rewrite insert_Permutation. now constructor.
Qed.

Lemma insert_sorted (r : Row R) (l : list (Row R)) :
  StronglySorted le_depth l -> StronglySorted le_depth (pd.insert r l).
Proof.
  induction 1 as [|s l Hs IH Hall]; simpl.
  - repeat constructor.
  - unfold Rleb. destruct (Rle_dec (depth r) (depth s)) as [Hle | Hgt].
    + constructor; [now constructor|].
      constructor; [exact Hle|].
      eapply Forall_impl; [|exact Hall]. unfold le_depth. intros; lra.
    + constructor; [exact IH|].
      eapply Permutation_Forall; [symmetry; apply insert_Permutation|].
      constructor; [unfold le_depth; lra | exact Hall].
Qed.

Lemma sort_values_sorted (l : list (Row R)) :
  StronglySorted le_depth (pd.sort_values l).
Proof.
  induction l as [|r l IH]; simpl; [constructor | now apply insert_sorted].
Qed.

(** Two sorted lists with the same rows, all at distinct depths, are
    equal. *)
Lemma sorted_unique (l l' : list (Row R)) :
  StronglySorted le_depth l -> StronglySorted le_depth l' ->
  Permutation l l' -> NoDup (map depth l) -> l = l'.
Proof.
  intros Hs. revert l'. induction Hs as [|a l Hs IH Ha]; intros l' Hs' P Hnd.
  - apply Permutation_nil in P. now subst.
  - destruct Hs' as [|b l' Hs' Hb].
    { symmetry in P. apply Permutation_nil in P. discriminate. }
    assert (Eab : a = b).
    { assert (Hina : In a (b :: l')) by (eapply Permutation_in; [exact P | now left]).
      assert (Hinb : In b (a :: l)).
      { eapply Permutation_in; [symmetry; exact P | now left]. }
      destruct Hina as [E | Hina]; [now symmetry|].
      destruct Hinb as [E | Hinb]; [exact E|].
      rewrite Forall_forall in Ha, Hb.
      assert (depth a = depth b).
      { apply Rle_antisym; [now apply Ha | now apply Hb]. }
      inversion Hnd as [|? ? Hnotin _]; subst.
      exfalso. apply Hnotin. rewrite H. now apply in_map. }
    subst b. f_equal. apply IH.
    + exact Hs'.
    + now apply Permutation_cons_inv in P.
    + now inversion Hnd.
Qed.

Lemma sort_values_perm_invariant (l l' : list (Row R)) :
  Permutation l l' -> NoDup (map depth l) ->
  pd.sort_values l = pd.sort_values l'.
Proof.
  intros P Hnd. apply sorted_unique; try apply sort_values_sorted.
  - rewrite !sort_values_Permutation. exact P.
  - eapply Permutation_NoDup; [|exact Hnd].
    apply Permutation_map. symmetry. apply sort_values_Permutation.
Qed.

(** ** The integration *)





(** An extremum that is known determines the result of [np.min] and
    [np.max]. *)
Lemma np_min_eq (c : R) (a : list R) (m : R) : is_min m (c :: a) -> np.min c a = m.
Proof.
  intros H. eapply is_min_unique_mem; [|apply np_min_spec | exact H]. tauto.
Qed.

Lemma np_max_eq (c : R) (a : list R) (m : R) : is_max m (c :: a) -> np.max c a = m.
Proof.
  intros H. eapply is_max_unique_mem; [|apply np_max_spec | exact H]. tauto.
Qed.

(** *** Vertical holes: every dip is 0 *)

Lemma rad_of_0 : 0 * (PI / 180) = 0.
Proof. lra. Qed.

Lemma rad_of_90 : 90 * (PI / 180) = PI / 2.
Proof. lra. Qed.











(** C4. In exact arithmetic, one surviving station at depth 10, dip 90
    and azimuth 0 moves the trajectory 10 to the North: the Y extent is
    [cy, cy + 10], and the X and Z extents stay at the collar. *)
Theorem horizontal_north_station
    (cx cy cz : R) (depths dips azimuths : Series R) :
  pd.dropna (pd.DataFrame depths dips azimuths) = [mkRow 10 90 0] ->
  _compute_hole_bounding_box cx cy cz depths dips azimuths =
    {| xmin := cx; xmax := cx; ymin := cy; ymax := cy + 10;
       zmin := cz; zmax := cz |}.
Proof.
  intros H. unfold _compute_hole_bounding_box, survey_rows. rewrite H.
  unfold integrate. cbn.
  rewrite rad_of_90, rad_of_0, sin_PI2, cos_PI2, sin_0, cos_0.
  f_equal; case_Rlt.
Qed.

(** The station of C4 below the collar (1, 2, 3), after a row that lacks
    its dip. *)
Lemma horizontal_north_station_sample :
  _compute_hole_bounding_box 1 2 3 north_depths north_dips north_azimuths =
    {| xmin := 1; xmax := 1; ymin := 2; ymax := 2 + 10; zmin := 3; zmax := 3 |}.
Proof.
  apply (horizontal_north_station 1 2 3 north_depths north_dips north_azimuths).
  reflexivity.
Defined.

(** *** The same holes on machine numbers *)

(** Decimal constants below stand for the nearest machine number, as in
    Python. *)
Set Warnings "-inexact-float".

(** [sin] and [cos] of the model at the quarter turns and at 30 and 60
    degrees, as the C library returns them. *)
Lemma libm_values :
  map (fun d => (f64_sin (f64_mul d f64_rad_per_deg),
                 f64_cos (f64_mul d f64_rad_per_deg)))
      [0; 30; 60; 90; 180; 270; 360]%float
  = [ (0, 1);
      (0.49999999999999994, 0.8660254037844387);
      (0.8660254037844386, 0.5000000000000001);
      (1, 6.123233995736766e-17);
      (1.2246467991473532e-16, -1);
      (-1, -1.8369701987210297e-16);
      (-2.4492935982947064e-16, 1) ]%float.
Proof. vm_compute. reflexivity. Qed.

(** C4 as stated fails on machine numbers: [cos (deg2rad 90)] is
    [6.123233995736766e-17], not 0, so below the collar (0, 0, 0) the
    station of depth 10 ends at [z = -6.1e-16] and the Z extent is not
    the collar Z. The X extent and the Y extent [0, 10] are as stated. *)
Lemma horizontal_north_station_binary64 :
  pd.dropna (pd.DataFrame station64_depths station64_dips station64_azimuths)
  = [mkRow 10 90 0]%float /\
  _compute_hole_bounding_box 0%float 0%float 0%float
    station64_depths station64_dips station64_azimuths
  = {| xmin := 0; xmax := 0; ymin := 0; ymax := 10;
       zmin := -6.123233995736766e-16; zmax := 0 |}%float /\
  PrimFloat.eqb
    (zmin (_compute_hole_bounding_box 0%float 0%float 0%float
             station64_depths station64_dips station64_azimuths))
    0%float = false.
Proof. split; [|split]; vm_compute; reflexivity. Qed.

(** The scenario of the spec on machine numbers: X [0, 0], Y [0, 0],
    Z [85, 100]. *)
Lemma vertical_hole_scenario_binary64 :
  _compute_hole_bounding_box 0%float 0%float 100%float
    scenario64_depths scenario64_dips scenario64_azimuths
  = {| xmin := 0; xmax := 0; ymin := 0; ymax := 0;
       zmin := 85; zmax := 100 |}%float.
Proof. vm_compute. reflexivity. Qed.


(** C3. The rows the integration runs over are the rows of the frame
    with depth, dip and azimuth all present, each as often as it occurs
    there, in ascending order of depth. When the complete rows have
    pairwise distinct depths, the box is the same for every order of the
    input rows. *)
Theorem survey_rows_dropna_sorted :
  (forall depths dips azimuths : Series R,
      let df := pd.DataFrame depths dips azimuths in
      let rows := survey_rows depths dips azimuths in
      (forall d i a,
          In (mkRow d i a) rows <->
          In (mkRawRow (Some d) (Some i) (Some a)) df) /\
      Permutation rows (pd.dropna df) /\
      StronglySorted le_depth rows) /\
  (forall (rs rs' : list (RawRow R)) (cx cy cz : R),
      Permutation rs rs' ->
      NoDup (map depth (pd.dropna rs)) ->
      _compute_hole_bounding_box cx cy cz
        (map raw_depth rs) (map raw_dip rs) (map raw_azimuth rs)
      = _compute_hole_bounding_box cx cy cz
          (map raw_depth rs') (map raw_dip rs') (map raw_azimuth rs')).
Proof.
  split.
  - intros depths dips azimuths df rows. unfold rows, survey_rows. fold df.
    split; [|split].
    + intros d i a. rewrite <- (dropna_In df (mkRow d i a)).
      apply (Permutation_mem _ _ (sort_values_Permutation (pd.dropna df))).
    + apply sort_values_Permutation.
    + apply sort_values_sorted.
  - intros rs rs' cx cy cz P Hnd.
    unfold _compute_hole_bounding_box, survey_rows.
    rewrite !DataFrame_columns.
    rewrite (sort_values_perm_invariant (pd.dropna rs) (pd.dropna rs'));
      [reflexivity | now apply dropna_Permutation | exact Hnd].
Qed.

(** Three rows, one of them incomplete, give the same box in two
    orders. *)
Lemma survey_rows_reordered :
  _compute_hole_bounding_box 0 0 100
    (map raw_depth unsorted_rows) (map raw_dip unsorted_rows)
    (map raw_azimuth unsorted_rows)
  = _compute_hole_bounding_box 0 0 100
      (map raw_depth reordered_rows) (map raw_dip reordered_rows)
      (map raw_azimuth reordered_rows).
Proof.
  apply (proj2 survey_rows_dropna_sorted unsorted_rows reordered_rows 0 0 100).
  - unfold unsorted_rows, reordered_rows.
    apply Permutation_sym.
    apply (Permutation_cons_app [_; _] []). reflexivity.
  - simpl. constructor; [|constructor; [|constructor]]; simpl.
    + intros [H | []]. lra.
    + intros [].
Defined.

(** C3 as stated fails for rows of equal depth: the second of two rows at
    depth 5 gets a step of length 0, so a vertical and a horizontal row at
    depth 5 give a different box in each order. The two orders of the
    tied rows integrate to different boxes, so this holds however the
    sort arranges rows of equal depth. *)
Lemma tied_depths_order_dependent :
  Permutation (pd.DataFrame tied_depths tied_dips tied_azimuths)
              (pd.DataFrame tied_depths tied_dips_swapped tied_azimuths) /\
  _compute_hole_bounding_box 0 0 0 tied_depths tied_dips tied_azimuths
  <> _compute_hole_bounding_box 0 0 0 tied_depths tied_dips_swapped tied_azimuths /\
  integrate 0 0 0 [mkRow 5 0 0; mkRow 5 90 0]
  <> integrate 0 0 0 [mkRow 5 90 0; mkRow 5 0 0].
Proof.
  assert (Hneq : integrate 0 0 0 [mkRow 5 0 0; mkRow 5 90 0]
                 <> integrate 0 0 0 [mkRow 5 90 0; mkRow 5 0 0]).
  { intros H. apply (f_equal zmin) in H. revert H.
    unfold integrate. cbn.
    rewrite rad_of_90, rad_of_0, cos_PI2, cos_0.
    case_Rlt. }
  split; [|split].
  - simpl. apply perm_swap.
  - unfold _compute_hole_bounding_box, survey_rows. simpl.
    unfold Rleb. destruct (Rle_dec 5 5) as [_ | Hn]; [exact Hneq | lra].
  - exact Hneq.
Qed.

(** ** Boxes of the holes and the overall box *)






(** ** Holes without usable rows *)

(** C1. A hole none of whose rows is complete contributes the box of its
    collar alone. [get_bounding_box] returns the empty list exactly when
    the collection has no distance table or no collar, in every
    arithmetic; when it has both and no hole has a usable row in any
    distance table, it returns the box of the collars. *)
Theorem hole_without_rows_gives_collar_box :
  (forall (num : Type) (F64 : Float64 num)
          (cx cy cz : num) (depths dips azimuths : Series num),
      pd.dropna (pd.DataFrame depths dips azimuths) = [] ->
      _compute_hole_bounding_box cx cy cz depths dips azimuths
      = point_box cx cy cz) /\
  (forall (num : Type) (F64 : Float64 num) (self : DownholeCollection num),
      get_bounding_box self = Ok [] <->
      get_measurement_tables self (Some [DistanceTable]) = [] \/
      collars self = []) /\
  (forall self : DownholeCollection R,
      no_usable_rows self ->
      get_measurement_tables self (Some [DistanceTable]) <> [] ->
      collars self <> [] ->
      get_bounding_box self
      = _combine_bounding_boxes (map collar_box (collars self))).
Proof.
  split; [exact @compute_without_rows|].
  split; [exact @get_bounding_box_empty_iff|].
  intros self Hno Hmt Hcs.
  rewrite get_bounding_box_unfold.
  destruct (collect_bboxes _ _) as [|b0 bs] eqn:Eb.
  { apply collect_bboxes_nil in Eb. tauto. }
  rewrite <- Eb. apply combine_same_members. intros b.
  rewrite collect_bboxes_flat_map, in_flat_map, in_map_iff. split.
  - intros (mt & Hin & Hb). apply in_map_iff in Hb. destruct Hb as (c & <- & Hc).
    exists c. split; [|exact Hc].
    unfold hole_bbox, collar_box. symmetry.
    apply compute_without_rows. now apply Hno.
  - intros (c & <- & Hc).
    destruct (get_measurement_tables self (Some [DistanceTable]))
      as [|mt mts] eqn:Emt; [congruence|].
    exists mt. split; [now left|]. apply in_map_iff. exists c.
    split; [|exact Hc].
    unfold hole_bbox, collar_box. apply compute_without_rows.
    apply Hno; [rewrite Emt; now left | exact Hc].
Qed.

(** The box of a collection whose only table has no complete row is the
    box of its collars. *)
Lemma dipless_collection_box :
  get_bounding_box dipless_collection
  = _combine_bounding_boxes (map collar_box (collars dipless_collection)).
Proof.
  apply (proj2 (proj2 hole_without_rows_gives_collar_box) dipless_collection).
  - intros mt c Hmt Hc. simpl in Hmt. destruct Hmt as [<- | []]. reflexivity.
  - simpl. discriminate.
  - simpl. discriminate.
Defined.

(** C1 as stated fails: the only hole of the collection has no complete
    row in the only distance table, yet it contributes its collar box and
    the overall box is that of the collar (1, 2, 3), not the empty
    list. *)
Lemma dipless_hole_contributes_collar_box :
  (forall c, In c (collars dipless_collection) ->
             usable_rows dipless_table c = []) /\
  collect_bboxes (collars dipless_collection)
    (get_measurement_tables dipless_collection (Some [DistanceTable]))
  = [point_box 1 2 3] /\
  get_bounding_box dipless_collection = Ok [1; 1; 2; 2; 3; 3] /\
  get_bounding_box dipless_collection <> Ok [].
Proof.
  split; [|split; [|split]].
  - intros c _. reflexivity.
  - reflexivity.
  - reflexivity.
  - discriminate.
Qed.

(** ** [AttributeFactory.create] *)

Section CreateFacts.

Context {error TableInfo FloatArray1 NanContinuous ContinuousAttribute : Type}.
Variable FloatArray1_from_dict : TableInfo -> error + FloatArray1.
Variable NanContinuous_init : list attributes.scalar -> error + NanContinuous.
Variable ContinuousAttribute_init :
  string -> string -> NanContinuous -> FloatArray1 -> error + ContinuousAttribute.

(** C8. For a column of float dtype, [create] saves the one-column table
    of its values and builds the attribute, under the given name, from
    the array read off the saved table and the sentinel descriptor of
    the markers attached to the column (none when there is no
    [nan_values] entry). It returns that attribute exactly when the
    client and the three schema functions accept what they are handed,
    it raises the error of the first of them that raises, and it never
    returns [None]. For every column of another dtype, integer and
    boolean columns included, it returns [None], whatever the client. *)
Theorem create_float_columns_only
    (name : string) (series : attributes.Series)
    (client : attributes.ObjectDataClient error TableInfo) :
  (forall vals : list (option R),
      attributes.data series = attributes.FloatColumn vals ->
      exists markers : list attributes.scalar,
        (forall attached,
            attributes.attrs series !! "nan_values"%string = Some attached ->
            markers = attached) /\
        (attributes.attrs series !! "nan_values"%string = None ->
         markers = []) /\
        (forall attribute,
            attributes.create FloatArray1_from_dict NanContinuous_init
              ContinuousAttribute_init name series client
            = inr (Some attribute) <->
            exists table_info float_array nan_description,
              attributes.save_table client
                {| attributes.column_name := "data";
                   attributes.column_data := vals |} = inr table_info /\
              FloatArray1_from_dict table_info = inr float_array /\
              NanContinuous_init markers = inr nan_description /\
              ContinuousAttribute_init name name nan_description float_array
              = inr attribute) /\
        (forall e,
            attributes.create FloatArray1_from_dict NanContinuous_init
              ContinuousAttribute_init name series client
            = inl e <->
            attributes.save_table client
              {| attributes.column_name := "data";
                 attributes.column_data := vals |} = inl e \/
            exists table_info,
              attributes.save_table client
                {| attributes.column_name := "data";
                   attributes.column_data := vals |} = inr table_info /\
              (FloatArray1_from_dict table_info = inl e \/
               exists float_array,
                 FloatArray1_from_dict table_info = inr float_array /\
                 (NanContinuous_init markers = inl e \/
                  exists nan_description,
                    NanContinuous_init markers = inr nan_description /\
                    ContinuousAttribute_init name name nan_description
                      float_array = inl e))) /\
        attributes.create FloatArray1_from_dict NanContinuous_init
          ContinuousAttribute_init name series client
        <> inr None) /\
  (attributes.is_float_dtype series = false ->
   attributes.create FloatArray1_from_dict NanContinuous_init
     ContinuousAttribute_init name series client
   = inr None).
Proof.
  split.
  - intros vals Hdata. unfold attributes.create. rewrite Hdata.
    unfold attributes.create_continuous_table.
    set (markers := match attributes.attrs series !! "nan_values"%string with
                    | Some m => m
                    | None => []
                    end).
    exists markers. split; [|split; [|split; [|split]]].
    + intros attached E. unfold markers. now rewrite E.
    + intros E. unfold markers. now rewrite E.
    + intros attribute.
      destruct (attributes.save_table client _) as [e1|table_info] eqn:E1;
        [(split; intros H; break_calls; try congruence; eauto 15)|].
      destruct (FloatArray1_from_dict table_info) as [e2|float_array] eqn:E2;
        [(split; intros H; break_calls; try congruence; eauto 15)|].
      destruct (NanContinuous_init markers) as [e3|nan_description] eqn:E3;
        [(split; intros H; break_calls; try congruence; eauto 15)|].
      destruct (ContinuousAttribute_init name name nan_description float_array)
        as [e4|attribute'] eqn:E4; (split; intros H; break_calls; try congruence; eauto 15).
    + intros e.
      destruct (attributes.save_table client _) as [e1|table_info] eqn:E1;
        [(split; intros H; break_calls; try congruence; eauto 15)|].
      destruct (FloatArray1_from_dict table_info) as [e2|float_array] eqn:E2;
        [(split; intros H; break_calls; try congruence; eauto 15)|].
      destruct (NanContinuous_init markers) as [e3|nan_description] eqn:E3;
        [(split; intros H; break_calls; try congruence; eauto 15)|].
      destruct (ContinuousAttribute_init name name nan_description float_array)
        as [e4|attribute'] eqn:E4; (split; intros H; break_calls; try congruence; eauto 15).
    + destruct (attributes.save_table client _) as [e1|table_info];
        [discriminate|].
      destruct (FloatArray1_from_dict table_info) as [e2|float_array];
        [discriminate|].
      destruct (NanContinuous_init markers) as [e3|nan_description];
        [discriminate|].
      destruct (ContinuousAttribute_init name name nan_description float_array);
        discriminate.
  - unfold attributes.is_float_dtype, attributes.create.
    destruct (attributes.data series); intros H; try reflexivity; discriminate.
Qed.

End CreateFacts.

(** A float column with a float marker gives the attribute; the same
    column with an integer marker makes the sample descriptor raise, and
    [create] with it. *)
Lemma create_float_series :
  sample_schemas.create "qc" float_series sample_client
  = inr (Some {| sample_schemas.attr_key := "qc";
                 sample_schemas.attr_name := "qc";
                 sample_schemas.nan_description :=
                   {| sample_schemas.nan_values := [attributes.SFloat (-999)] |};
                 sample_schemas.attr_values :=
                   {| sample_schemas.array_data := "0f0f0f0f0f0f0f0f0f0f0f0f0f0f0f0f0f0f0f0f0f0f0f0f0f0f0f0f0f0f0f0f";
                      sample_schemas.array_length := 3 |} |}) /\
  sample_schemas.create "qc" float_series_int_marker sample_client
  = inl (sample_schemas.ValidationFailed "values must be floats").
Proof.
  split.
  - destruct (proj1 (create_float_columns_only
                       sample_schemas.FloatArray1_from_dict
                       sample_schemas.NanContinuous_init
                       sample_schemas.ContinuousAttribute_init
                       "qc" float_series sample_client) _ eq_refl)
      as (markers & Ha & _ & Hok & _).
    apply Hok. rewrite (Ha [attributes.SFloat (-999)] eq_refl).
    eexists _, _, _. repeat split.
  - destruct (proj1 (create_float_columns_only
                       sample_schemas.FloatArray1_from_dict
                       sample_schemas.NanContinuous_init
                       sample_schemas.ContinuousAttribute_init
                       "qc" float_series_int_marker sample_client) _ eq_refl)
      as (markers & Ha & _ & _ & Herr & _).
    apply Herr. rewrite (Ha [attributes.SInt (-999)] eq_refl).
    right. eexists. split; [reflexivity|].
    right. eexists. split; [reflexivity|]. left. reflexivity.
Defined.

(** C8 as stated fails for a numeric column that is not of float dtype:
    an integer column yields no attribute. *)
Lemma create_int_series_none :
  attributes.is_numeric_dtype int_series = true /\
  sample_schemas.create "qc" int_series sample_client = inr None.
Proof. split; reflexivity. Qed.

(** * Further properties of the code *)

(** ** The combined box is the least box around its inputs *)

(** What a result of six floats says about the boxes combined. *)
Lemma combine_as_list (l : list (BBox R)) (B : BBox R) :
  _combine_bounding_boxes l = Ok (as_list B) ->
  l <> [] /\
  is_min (xmin B) (map xmin l) /\ is_max (xmax B) (map xmax l) /\
  is_min (ymin B) (map ymin l) /\ is_max (ymax B) (map ymax l) /\
  is_min (zmin B) (map zmin l) /\ is_max (zmax B) (map zmax l).
Proof.
  intros E. destruct l as [|b bs]; [discriminate|].
  split; [discriminate|].
  destruct (combine_spec (b :: bs))
    as (x0 & x1 & y0 & y1 & z0 & z1 & E' & A); [discriminate|].
  rewrite E in E'. unfold as_list in E'. inversion E'. subst. exact A.
Qed.

(** A non-empty list combines to the list of some box. *)
Lemma combine_box (l : list (BBox R)) :
  l <> [] -> exists B, _combine_bounding_boxes l = Ok (as_list B).
Proof.
  intros Hne.
  destruct (combine_spec l Hne) as (x0 & x1 & y0 & y1 & z0 & z1 & E & _).
  now exists (mkBBox x0 x1 y0 y1 z0 z1).
Qed.

Lemma is_min_attained {A : Type} (f : A -> R) (l : list A) (m : R) :
  is_min m (map f l) -> exists a, In a l /\ f a = m.
Proof.
  intros [Hin _]. apply in_map_iff in Hin. destruct Hin as (a & E & Ha).
  now exists a.
Qed.

Lemma is_max_attained {A : Type} (f : A -> R) (l : list A) (m : R) :
  is_max m (map f l) -> exists a, In a l /\ f a = m.
Proof.
  intros [Hin _]. apply in_map_iff in Hin. destruct Hin as (a & E & Ha).
  now exists a.
Qed.

(** The combined box bounds the boxes of the list, and is the least
    to do so. *)
Lemma combine_bounds (l : list (BBox R)) (B : BBox R) :
  _combine_bounding_boxes l = Ok (as_list B) ->
  (forall b, In b l -> encloses B b) /\
  (forall B', (forall b, In b l -> encloses B' b) -> encloses B' B).
Proof.
  intros E.
  destruct (combine_as_list l B E) as (_ & A1 & A2 & A3 & A4 & A5 & A6).
  split.
  - intros b Hb. unfold encloses. repeat split.
    + apply (is_min_below _ _ _ A1). now apply in_map.
    + apply (is_max_above _ _ _ A2). now apply in_map.
    + apply (is_min_below _ _ _ A3). now apply in_map.
    + apply (is_max_above _ _ _ A4). now apply in_map.
    + apply (is_min_below _ _ _ A5). now apply in_map.
    + apply (is_max_above _ _ _ A6). now apply in_map.
  - intros B' HB'. unfold encloses.
    destruct (is_min_attained xmin l _ A1) as (b1 & H1 & <-).
    destruct (is_max_attained xmax l _ A2) as (b2 & H2 & <-).
    destruct (is_min_attained ymin l _ A3) as (b3 & H3 & <-).
    destruct (is_max_attained ymax l _ A4) as (b4 & H4 & <-).
    destruct (is_min_attained zmin l _ A5) as (b5 & H5 & <-).
    destruct (is_max_attained zmax l _ A6) as (b6 & H6 & <-).
    pose proof (HB' b1 H1). pose proof (HB' b2 H2). pose proof (HB' b3 H3).
    pose proof (HB' b4 H4). pose proof (HB' b5 H5). pose proof (HB' b6 H6).
    unfold encloses in *. repeat split; tauto.
Qed.

(** X1. The box [_combine_bounding_boxes] returns encloses every box of
    the list, and every box that encloses them all encloses it. *)
Theorem combine_least_enclosing (l : list (BBox R)) (B : BBox R) :
  _combine_bounding_boxes l = Ok (as_list B) ->
  (forall b, In b l -> encloses B b) /\
  (forall B', (forall b, In b l -> encloses B' b) -> encloses B' B).
Proof.
  intros E. split.
  - intros b Hb. now apply (proj1 (combine_bounds l B E)).
  - intros B' HB'. now apply (proj2 (combine_bounds l B E)).
Qed.

(** Two of the sample boxes and the box around them. *)
Lemma combine_least_enclosing_sample :
  encloses (mkBBox (-2) 1 0 4 80 100) box_a /\
  encloses (mkBBox (-2) 1 0 4 80 100) box_b.
Proof.
  assert (E : _combine_bounding_boxes [box_a; box_b]
              = Ok (as_list (mkBBox (-2) 1 0 4 80 100))).
  { unfold _combine_bounding_boxes, as_list, box_a, box_b, py_min, py_max.
    cbn. unfold Rltb.
    repeat match goal with
           | |- context [Rlt_dec ?a ?b] => destruct (Rlt_dec a b); try lra
           end.
    reflexivity. }
  split; apply (proj1 (combine_least_enclosing _ _ E)); simpl; auto.
Defined.

(** Two least boxes around the same boxes are equal. *)
Lemma encloses_antisym (B B' : BBox R) : encloses B B' -> encloses B' B -> B = B'.
Proof.
  destruct B, B'. unfold encloses; simpl. intros H H'.
  f_equal; lra.
Qed.

Lemma encloses_trans (B1 B2 B3 : BBox R) :
  encloses B1 B2 -> encloses B2 B3 -> encloses B1 B3.
Proof. unfold encloses. intros; repeat split; lra. Qed.

Lemma encloses_refl (B : BBox R) : encloses B B.
Proof. unfold encloses. repeat split; lra. Qed.

(** X2. In exact arithmetic, where the bounds are real numbers,
    combining is associative: the boxes of two lists, combined, give the
    box of the two lists together. *)
Theorem combine_app (l1 l2 : list (BBox R)) (B1 B2 : BBox R) :
  _combine_bounding_boxes l1 = Ok (as_list B1) ->
  _combine_bounding_boxes l2 = Ok (as_list B2) ->
  _combine_bounding_boxes (l1 ++ l2) = _combine_bounding_boxes [B1; B2].
Proof.
  intros E1 E2.
  destruct (combine_bounds l1 B1 E1) as [In1 Least1].
  destruct (combine_bounds l2 B2 E2) as [In2 Least2].
  assert (Hne : l1 ++ l2 <> []).
  { destruct l1; [discriminate | discriminate]. }
  destruct (combine_box (l1 ++ l2) Hne) as (B & E).
  destruct (combine_box [B1; B2]) as (B' & E'); [discriminate|].
  rewrite E, E'. f_equal. f_equal.
  destruct (combine_bounds _ B E) as [In12 Least12].
  destruct (combine_bounds _ B' E') as [In' Least'].
  apply encloses_antisym.
  - apply Least'. intros b [<- | [<- | []]].
    + apply Least1. intros b Hb. apply In12. apply in_or_app. now left.
    + apply Least2. intros b Hb. apply In12. apply in_or_app. now right.
  - apply Least12. intros b Hb. apply in_app_or in Hb. destruct Hb as [Hb | Hb].
    + eapply encloses_trans; [apply In'; now left | now apply In1].
    + eapply encloses_trans; [apply In'; right; now left | now apply In2].
Qed.

(** ** The trajectory *)

(** The box of [integrate] is the extent of [xs], [ys] and [zs], in every
    arithmetic. *)
Lemma integrate_extent {num : Type} {F64 : Float64 num}
    (cx cy cz : num) (df : list (Row num)) :
  integrate cx cy cz df =
    {| xmin := np.min cx (tl (xs cx df)); xmax := np.max cx (tl (xs cx df));
       ymin := np.min cy (tl (ys cy df)); ymax := np.max cy (tl (ys cy df));
       zmin := np.min cz (tl (zs cz df)); zmax := np.max cz (tl (zs cz df)) |}.
Proof. reflexivity. Qed.

(** The radians of a row, and the increments of its segment. *)
Lemma step_from_cons (prev : R) (r : Row R) (df : list (Row R)) :
  step_from prev (r :: df) = (depth r - prev) :: step_from (depth r) df.
Proof. reflexivity. Qed.

Lemma dX_from_cons (prev : R) (r : Row R) (df : list (Row R)) :
  dX_from prev (r :: df)
  = (depth r - prev) * sin (dip r * (PI / 180)) * sin (azimuth r * (PI / 180))
    :: dX_from (depth r) df.
Proof. reflexivity. Qed.

Lemma dY_from_cons (prev : R) (r : Row R) (df : list (Row R)) :
  dY_from prev (r :: df)
  = (depth r - prev) * sin (dip r * (PI / 180)) * cos (azimuth r * (PI / 180))
    :: dY_from (depth r) df.
Proof. reflexivity. Qed.

Lemma dZ_from_cons (prev : R) (r : Row R) (df : list (Row R)) :
  dZ_from prev (r :: df)
  = - ((depth r - prev) * cos (dip r * (PI / 180))) :: dZ_from (depth r) df.
Proof. reflexivity. Qed.

Lemma segment_length_from (prev : R) (df : list (Row R)) (i : nat) :
  (nth i (dX_from prev df) 0)² + (nth i (dY_from prev df) 0)²
  + (nth i (dZ_from prev df) 0)²
  = (nth i (step_from prev df) 0)² /\
  ((i < length df)%nat ->
   nth i (step_from prev df) 0
   = nth i (map depth df) 0 - nth i (prev :: map depth df) 0).
Proof.
  revert i prev. induction df as [|r df IH]; intros i prev.
  - destruct i; simpl; (split; [unfold Rsqr; lra | intros Hi; exfalso; lia]).
  - rewrite dX_from_cons, dY_from_cons, dZ_from_cons, step_from_cons.
    destruct i as [|i].
    + simpl. split; [|reflexivity]. unfold Rsqr.
      pose proof (sin2_cos2 (dip r * (PI / 180))) as Hd.
      pose proof (sin2_cos2 (azimuth r * (PI / 180))) as Ha.
      unfold Rsqr in Hd, Ha.
      set (s := depth r - prev) in *.
      set (sd := sin (dip r * (PI / 180))) in *.
      set (cd := cos (dip r * (PI / 180))) in *.
      set (sa := sin (azimuth r * (PI / 180))) in *.
      set (ca := cos (azimuth r * (PI / 180))) in *.
      transitivity (s * s * (sd * sd * (sa * sa + ca * ca) + cd * cd)); [ring|].
      rewrite Ha. replace (sd * sd * 1 + cd * cd) with (sd * sd + cd * cd) by ring.
      rewrite Hd. ring.
    + simpl. destruct (IH i (depth r)) as [H1 H2]. split; [exact H1|].
      intros Hi. apply H2. lia.
Qed.

(** X3. In exact arithmetic every segment of the trajectory is as long
    as the hole between its two stations: the increments [dX], [dY],
    [dZ] of station [i] have squares that sum to the square of the depth
    of station [i] less the depth of the station before it (0 for the
    first). *)
Theorem segment_length (df : list (Row R)) (i : nat) :
  (i < length df)%nat ->
  (nth i (dX df) 0)² + (nth i (dY df) 0)² + (nth i (dZ df) 0)²
  = (nth i (map depth df) 0 - nth i (0 :: map depth df) 0)².
Proof.
  intros Hi. destruct (segment_length_from 0 df i) as [Hlen Hstep].
  rewrite <- (Hstep Hi). exact Hlen.
Qed.


(** *** How far the trajectory can go *)

Lemma cumsum_from_0 (a : list R) : np.cumsum a = np.cumsum_from 0 a.
Proof.
  destruct a as [|v a]; [reflexivity|]. cbn.
  replace (0 + v) with v by lra. reflexivity.
Qed.

Lemma step_from_length (prev : R) (df : list (Row R)) :
  length (step_from prev df) = length df.
Proof.
  revert prev. induction df as [|r df IH]; intros prev; [reflexivity|].
  rewrite step_from_cons. simpl. now rewrite IH.
Qed.

(** The steps of a frame sorted by depth are not negative. *)
Lemma step_from_nonneg (prev : R) (df : list (Row R)) :
  StronglySorted le_depth df ->
  Forall (fun r => prev <= depth r) df ->
  Forall (fun s => 0 <= s) (step_from prev df).
Proof.
  intros Hs. revert prev. induction Hs as [|r df Hs IH Hr]; intros prev Hprev.
  - constructor.
  - rewrite step_from_cons. inversion Hprev; subst. constructor; [lra|].
    apply IH. exact Hr.
Qed.

(** They sum to at most the deepest depth less the start. *)
Lemma step_from_sum (prev D : R) (df : list (Row R)) :
  prev <= D ->
  Forall (fun r => depth r <= D) df ->
  fold_right Rplus 0 (step_from prev df) <= D - prev.
Proof.
  revert prev. induction df as [|r df IH]; intros prev Hprev Hall.
  - simpl. lra.
  - rewrite step_from_cons. inversion Hall; subst. simpl.
    specialize (IH (depth r) H1 H2). lra.
Qed.

(** Multiplying by factors between -1 and 1 keeps increments within
    their steps. *)
Lemma mul_within (a s t : list R) :
  Forall2 (fun ai si => - si <= ai <= si) a s ->
  Forall (fun ti => -1 <= ti <= 1) t ->
  length a = length t ->
  Forall2 (fun ai si => - si <= ai <= si) (np.mul a t) s.
Proof.
  intros H. revert t. induction H as [|ai si a s Hi _ IH]; intros t Ht Hlen.
  - destruct t; constructor.
  - destruct t as [|ti t]; [discriminate|]. inversion Ht; subst.
    cbn. constructor.
    + nra.
    + apply IH; [assumption | simpl in Hlen; congruence].
Qed.

Lemma self_within (s : list R) :
  Forall (fun si => 0 <= si) s ->
  Forall2 (fun ai si => - si <= ai <= si) s s.
Proof. induction 1; constructor; [lra | assumption]. Qed.

Lemma neg_within (a s : list R) :
  Forall2 (fun ai si => - si <= ai <= si) a s ->
  Forall2 (fun ai si => - si <= ai <= si) (np.neg a) s.
Proof. induction 1; cbn; constructor; [lra | assumption]. Qed.

Lemma sin_within (l : list R) : Forall (fun ti => -1 <= ti <= 1) (np.sin l).
Proof. induction l; cbn; constructor; [apply SIN_bound | assumption]. Qed.

Lemma cos_within (l : list R) : Forall (fun ti => -1 <= ti <= 1) (np.cos l).
Proof. induction l; cbn; constructor; [apply COS_bound | assumption]. Qed.

Lemma trig_length (f : list R -> list R) (df : list (Row R)) (g : Row R -> R) :
  f = np.sin \/ f = np.cos ->
  length (f (np.deg2rad (map g df))) = length df.
Proof.
  intros [-> | ->]; unfold np.sin, np.cos, np.deg2rad; now rewrite !length_map.
Qed.

(** The running sums of increments that stay within their steps stay
    within the sum of the steps. *)
Lemma cumsum_from_within (a s : list R) (acc B : R) :
  Forall2 (fun ai si => - si <= ai <= si) a s ->
  fold_right Rplus 0 s <= B ->
  Forall (fun e => acc - B <= e <= acc + B) (np.cumsum_from acc a).
Proof.
  intros H. revert acc B. induction H as [|ai si a s Hi Hrest IH]; intros acc B HB.
  - constructor.
  - simpl in HB. cbn.
    assert (Hs : 0 <= fold_right Rplus 0 s).
    { clear -Hrest. induction Hrest; simpl; lra. }
    constructor; [lra|].
    specialize (IH (acc + ai) (B - si)).
    eapply Forall_impl; [|apply IH; lra].
    simpl. intros e He. lra.
Qed.

(** The three increment arrays of a sorted frame stay within its steps. *)
Lemma increments_within (prev : R) (df : list (Row R)) :
  StronglySorted le_depth df ->
  Forall (fun r => prev <= depth r) df ->
  Forall2 (fun ai si => - si <= ai <= si) (dX_from prev df) (step_from prev df) /\
  Forall2 (fun ai si => - si <= ai <= si) (dY_from prev df) (step_from prev df) /\
  Forall2 (fun ai si => - si <= ai <= si) (dZ_from prev df) (step_from prev df).
Proof.
  intros Hs Hprev.
  pose proof (self_within _ (step_from_nonneg prev df Hs Hprev)) as H0.
  assert (Hh : Forall2 (fun ai si => - si <= ai <= si)
                 (horiz_from prev df) (step_from prev df)).
  { apply mul_within; [exact H0 | apply sin_within|].
    rewrite step_from_length. symmetry. apply trig_length. now left. }
  assert (Hlen : length (horiz_from prev df) = length df).
  { rewrite <- (step_from_length prev df).
    eapply Forall2_length. exact Hh. }
  repeat split.
  - apply mul_within; [exact Hh | apply sin_within|].
    rewrite Hlen. symmetry. apply trig_length. now left.
  - apply mul_within; [exact Hh | apply cos_within|].
    rewrite Hlen. symmetry. apply trig_length. now right.
  - apply neg_within. apply mul_within; [exact H0 | apply cos_within|].
    rewrite step_from_length. symmetry. apply trig_length. now right.
Qed.

(** The stations of a hole surveyed between depth 0 and depth [D] lie
    within [D] of the collar on the axis of [a]. *)
Lemma stations_within (c D : R) (a s : list R) :
  0 <= D ->
  Forall2 (fun ai si => - si <= ai <= si) a s ->
  fold_right Rplus 0 s <= D ->
  c - D <= np.min c (np.add_scalar c (np.cumsum a)) /\
  np.max c (np.add_scalar c (np.cumsum a)) <= c + D.
Proof.
  intros HD Ha Hs.
  assert (Hall : Forall (fun e => c - D <= e <= c + D)
                   (c :: np.add_scalar c (np.cumsum a))).
  { constructor; [lra|]. rewrite cumsum_from_0.
    unfold np.add_scalar. apply Forall_map.
    eapply Forall_impl; [|apply (cumsum_from_within a s 0 D Ha Hs)].
    simpl. intros e He. lra. }
  rewrite Forall_forall in Hall.
  destruct (np_min_spec c (np.add_scalar c (np.cumsum a))) as [Hmin _].
  destruct (np_max_spec c (np.add_scalar c (np.cumsum a))) as [Hmax _].
  split; [apply (Hall _ Hmin) | apply (Hall _ Hmax)].
Qed.

(** X4. In exact arithmetic, a hole whose surviving depths lie between
    0 and [D] has its box within [D] of the collar on every axis. *)
Theorem trajectory_within_reach
    (cx cy cz : R) (depths dips azimuths : Series R) (D : R) :
  0 <= D ->
  Forall (fun r => 0 <= depth r <= D)
         (pd.dropna (pd.DataFrame depths dips azimuths)) ->
  encloses (mkBBox (cx - D) (cx + D) (cy - D) (cy + D) (cz - D) (cz + D))
           (_compute_hole_bounding_box cx cy cz depths dips azimuths).
Proof.
  intros HD Hrows.
  unfold _compute_hole_bounding_box, survey_rows.
  set (rows := pd.dropna (pd.DataFrame depths dips azimuths)) in *.
  pose proof (sort_values_Permutation rows) as P.
  pose proof (sort_values_sorted rows) as Hs.
  set (df := pd.sort_values rows) in *.
  assert (Hdf : Forall (fun r => 0 <= depth r <= D) df).
  { eapply Permutation_Forall; [symmetry; exact P | exact Hrows]. }
  assert (H0 : Forall (fun r => 0 <= depth r) df).
  { eapply Forall_impl; [|exact Hdf]. simpl. intros r Hr. lra. }
  assert (HDs : Forall (fun r => depth r <= D) df).
  { eapply Forall_impl; [|exact Hdf]. simpl. intros r Hr. lra. }
  destruct (increments_within 0 df Hs H0) as (HX & HY & HZ).
  pose proof (step_from_sum 0 D df HD HDs) as Hsum.
  replace (D - 0) with D in Hsum by lra.
  rewrite integrate_extent. unfold encloses, xs, ys, zs; simpl.
  destruct (stations_within cx D _ _ HD HX Hsum).
  destruct (stations_within cy D _ _ HD HY Hsum).
  destruct (stations_within cz D _ _ HD HZ Hsum).
  repeat split; assumption.
Qed.

(** The three rows of the sample lie within depth 15. *)
Lemma trajectory_within_reach_sample :
  encloses (mkBBox (0 - 15) (0 + 15) (0 - 15) (0 + 15) (100 - 15) (100 + 15))
           (_compute_hole_bounding_box 0 0 100
              (map raw_depth unsorted_rows) (map raw_dip unsorted_rows)
              (map raw_azimuth unsorted_rows)).
Proof.
  apply (trajectory_within_reach 0 0 100 _ _ _ 15).
  - lra.
  - simpl. repeat constructor; simpl; lra.
Defined.


(** *** A hole that never points upwards *)

Lemma cos_rad_nonneg (d : R) : -90 <= d <= 90 -> 0 <= cos (d * (PI / 180)).
Proof.
  intros Hd. pose proof PI_RGT_0 as Hpi.
  apply cos_ge_0; nra.
Qed.

Lemma dZ_from_nonpos (prev : R) (df : list (Row R)) :
  StronglySorted le_depth df ->
  Forall (fun r => prev <= depth r) df ->
  Forall (fun r => -90 <= dip r <= 90) df ->
  Forall (fun v => v <= 0) (dZ_from prev df).
Proof.
  intros Hs. revert prev.
  induction Hs as [|r df Hs IH Hr]; intros prev Hprev Hdip.
  - constructor.
  - rewrite dZ_from_cons. inversion Hprev; subst. inversion Hdip; subst.
    constructor.
    + pose proof (cos_rad_nonneg (dip r) H3). nra.
    + apply IH; assumption.
Qed.

Lemma cumsum_from_nonpos (a : list R) (acc : R) :
  Forall (fun v => v <= 0) a ->
  Forall (fun e => e <= acc) (np.cumsum_from acc a).
Proof.
  intros H. revert acc. induction H as [|v a Hv _ IH]; intros acc; cbn.
  - constructor.
  - constructor; [lra|].
    eapply Forall_impl; [|apply IH]. simpl. intros e He. lra.
Qed.

(** X5. In exact arithmetic, a hole whose surviving rows have a depth
    that is not negative and a dip between -90 and 90 degrees never
    rises above its collar: the top of its box is the collar Z. *)
Theorem hole_stays_below_collar
    (cx cy cz : R) (depths dips azimuths : Series R) :
  Forall (fun r => 0 <= depth r /\ -90 <= dip r <= 90)
         (pd.dropna (pd.DataFrame depths dips azimuths)) ->
  zmax (_compute_hole_bounding_box cx cy cz depths dips azimuths) = cz.
Proof.
  intros Hrows.
  unfold _compute_hole_bounding_box, survey_rows.
  set (rows := pd.dropna (pd.DataFrame depths dips azimuths)) in *.
  pose proof (sort_values_Permutation rows) as P.
  pose proof (sort_values_sorted rows) as Hs.
  set (df := pd.sort_values rows) in *.
  assert (Hdf : Forall (fun r => 0 <= depth r /\ -90 <= dip r <= 90) df).
  { eapply Permutation_Forall; [symmetry; exact P | exact Hrows]. }
  assert (H0 : Forall (fun r => 0 <= depth r) df).
  { eapply Forall_impl; [|exact Hdf]. simpl. tauto. }
  assert (Hdip : Forall (fun r => -90 <= dip r <= 90) df).
  { eapply Forall_impl; [|exact Hdf]. simpl. tauto. }
  rewrite integrate_extent. unfold zs; simpl.
  apply np_max_eq. split; [now left|].
  constructor; [lra|].
  rewrite cumsum_from_0. unfold np.add_scalar. apply Forall_map.
  eapply Forall_impl;
    [|apply (cumsum_from_nonpos _ 0 (dZ_from_nonpos 0 df Hs H0 Hdip))].
  simpl. intros e He. lra.
Qed.

(** The deviated rows of the sample, dips 0 and 30, stay below the
    collar at Z 100. *)
Lemma hole_stays_below_collar_sample :
  zmax (_compute_hole_bounding_box 0 0 100
          (map raw_depth unsorted_rows) (map raw_dip unsorted_rows)
          (map raw_azimuth unsorted_rows)) = 100.
Proof.
  apply (hole_stays_below_collar 0 0 100).
  simpl. repeat constructor; simpl; lra.
Defined.

(** *** Moving the collar moves the box *)

Lemma is_min_shift (m t : R) (l : list R) :
  is_min m l -> is_min (m + t) (map (fun v => v + t) l).
Proof.
  intros [Hin Hall]. split.
  - apply in_map_iff. now exists m.
  - apply Forall_map. eapply Forall_impl; [|exact Hall]. simpl. intros; lra.
Qed.

Lemma is_max_shift (m t : R) (l : list R) :
  is_max m l -> is_max (m + t) (map (fun v => v + t) l).
Proof.
  intros [Hin Hall]. split.
  - apply in_map_iff. now exists m.
  - apply Forall_map. eapply Forall_impl; [|exact Hall]. simpl. intros; lra.
Qed.

Lemma add_scalar_shift (c t : R) (a : list R) :
  (c + t) :: np.add_scalar (c + t) a
  = map (fun v => v + t) (c :: np.add_scalar c a).
Proof.
  simpl. f_equal. unfold np.add_scalar. rewrite map_map.
  apply map_ext. intros v. cbn. lra.
Qed.

Lemma extent_shift (c t : R) (a : list R) :
  np.min (c + t) (np.add_scalar (c + t) a) = np.min c (np.add_scalar c a) + t /\
  np.max (c + t) (np.add_scalar (c + t) a) = np.max c (np.add_scalar c a) + t.
Proof.
  split.
  - apply np_min_eq. rewrite add_scalar_shift. apply is_min_shift, np_min_spec.
  - apply np_max_eq. rewrite add_scalar_shift. apply is_max_shift, np_max_spec.
Qed.

(** X6. Moving the collar by [(ta, tb, tc)] moves the box of the hole by
    the same vector. *)
Theorem compute_translate
    (cx cy cz ta tb tc : R) (depths dips azimuths : Series R) :
  _compute_hole_bounding_box (cx + ta) (cy + tb) (cz + tc) depths dips azimuths
  = translate ta tb tc
      (_compute_hole_bounding_box cx cy cz depths dips azimuths).
Proof.
  unfold _compute_hole_bounding_box. rewrite !integrate_extent.
  unfold xs, ys, zs, translate; simpl.
  set (df := survey_rows depths dips azimuths).
  destruct (extent_shift cx ta (np.cumsum (dX df))) as [-> ->].
  destruct (extent_shift cy tb (np.cumsum (dY df))) as [-> ->].
  destruct (extent_shift cz tc (np.cumsum (dZ df))) as [-> ->].
  reflexivity.
Qed.

(** *** One station *)

Lemma min_pair (c v : R) : np.min c [v] = Rmin c v.
Proof.
  cbn. unfold Rltb, Rmin.
  destruct (Rlt_dec c v), (Rle_dec c v); lra.
Qed.

Lemma max_pair (c v : R) : np.max c [v] = Rmax c v.
Proof.
  cbn. unfold Rltb, Rmax.
  destruct (Rlt_dec v c), (Rle_dec c v); lra.
Qed.

(** X7. In exact arithmetic, one surviving station at depth [d], dip
    [i] and azimuth [a] puts the end of the hole at the collar plus
    [d * (sin i * sin a, sin i * cos a, - cos i)], angles in degrees, and
    the box is spanned by the collar and that point: the dip is measured
    from the vertical, the azimuth from North towards East, X is East, Y
    is North and Z is up. *)
Theorem single_station_box
    (cx cy cz d i a : R) (depths dips azimuths : Series R) :
  pd.dropna (pd.DataFrame depths dips azimuths) = [mkRow d i a] ->
  let px := cx + d * sin (i * (PI / 180)) * sin (a * (PI / 180)) in
  let py := cy + d * sin (i * (PI / 180)) * cos (a * (PI / 180)) in
  let pz := cz - d * cos (i * (PI / 180)) in
  _compute_hole_bounding_box cx cy cz depths dips azimuths
  = {| xmin := Rmin cx px; xmax := Rmax cx px;
       ymin := Rmin cy py; ymax := Rmax cy py;
       zmin := Rmin cz pz; zmax := Rmax cz pz |}.
Proof.
  intros H px py pz.
  unfold _compute_hole_bounding_box, survey_rows. rewrite H.
  change (pd.sort_values [mkRow d i a]) with [mkRow d i a].
  rewrite integrate_extent. unfold xs, ys, zs, dX, dY, dZ.
  change (@f64_zero R exact) with 0.
  rewrite dX_from_cons, dY_from_cons, dZ_from_cons. simpl tl.
  change (dX_from d []) with (@nil R).
  change (dY_from d []) with (@nil R).
  change (dZ_from d []) with (@nil R).
  cbn [np.cumsum np.add_scalar map np.cumsum_from].
  rewrite !min_pair, !max_pair.
  unfold px, py, pz.
  replace (cx + (d - 0) * sin (i * (PI / 180)) * sin (a * (PI / 180)))
    with (cx + d * sin (i * (PI / 180)) * sin (a * (PI / 180))) by ring.
  replace (cy + (d - 0) * sin (i * (PI / 180)) * cos (a * (PI / 180)))
    with (cy + d * sin (i * (PI / 180)) * cos (a * (PI / 180))) by ring.
  replace (cz + - ((d - 0) * cos (i * (PI / 180))))
    with (cz - d * cos (i * (PI / 180))) by ring.
  reflexivity.
Qed.


(** *** Surveying further down *)

Lemma dropna_app {num : Type} (l l' : list (RawRow num)) :
  pd.dropna (l ++ l') = pd.dropna l ++ pd.dropna l'.
Proof.
  induction l as [|q l IH]; simpl; [reflexivity|].
  destruct (pd.notna q); simpl; now rewrite IH.
Qed.

(** A row deeper than the sorted rows before it keeps them sorted. *)
Lemma sorted_snoc (s : list (Row R)) (r : Row R) :
  StronglySorted le_depth s ->
  Forall (fun q => depth q < depth r) s ->
  StronglySorted le_depth (s ++ [r]).
Proof.
  induction 1 as [|q s Hs IH Hq]; intros Hr; simpl.
  - repeat constructor.
  - inversion Hr as [|? ? Hqr Hr']; subst. constructor; [now apply IH|].
    apply Forall_app. split; [exact Hq|].
    constructor; [|constructor]. unfold le_depth. lra.
Qed.

(** When no two rows are equally deep, the rows sorted with one deeper
    row are the rows sorted, then that row: there is one way to sort
    them, whatever the algorithm does with rows of equal depth. *)
Lemma sort_values_snoc (l : list (Row R)) (r : Row R) :
  List.NoDup (map depth l) ->
  Forall (fun q => depth q < depth r) l ->
  pd.sort_values (l ++ [r]) = pd.sort_values l ++ [r].
Proof.
  intros Hnd Hr.
  assert (P : Permutation (pd.sort_values (l ++ [r])) (pd.sort_values l ++ [r])).
  { rewrite sort_values_Permutation.
    apply Permutation_app_tail. symmetry. apply sort_values_Permutation. }
  apply sorted_unique.
  - apply sort_values_sorted.
  - apply sorted_snoc; [apply sort_values_sorted|].
    eapply Permutation_Forall; [|exact Hr].
    symmetry. apply sort_values_Permutation.
  - exact P.
  - apply (Permutation_NoDup (l := map depth (l ++ [r]))).
    + apply Permutation_map. symmetry. apply sort_values_Permutation.
    + rewrite map_app. simpl.
      apply (Permutation_NoDup (Permutation_cons_append _ _)).
      constructor; [|exact Hnd].
      intros Hin. apply in_map_iff in Hin. destruct Hin as (q & Eq & Hq).
      rewrite Forall_forall in Hr. specialize (Hr q Hq). lra.
Qed.

(** One more row adds one more entry to each array of increments. *)
Lemma step_from_snoc (prev : R) (df : list (Row R)) (r : Row R) :
  exists s, step_from prev (df ++ [r]) = step_from prev df ++ [s].
Proof.
  revert prev. induction df as [|q df IH]; intros prev.
  - now exists (depth r - prev).
  - destruct (IH (depth q)) as (s & E). exists s.
    change ((q :: df) ++ [r]) with (q :: (df ++ [r])).
    rewrite !step_from_cons, E. reflexivity.
Qed.

Lemma increments_snoc (prev : R) (df : list (Row R)) (r : Row R) :
  (exists v, dX_from prev (df ++ [r]) = dX_from prev df ++ [v]) /\
  (exists v, dY_from prev (df ++ [r]) = dY_from prev df ++ [v]) /\
  (exists v, dZ_from prev (df ++ [r]) = dZ_from prev df ++ [v]).
Proof.
  revert prev. induction df as [|q df IH]; intros prev.
  - repeat split; eexists; reflexivity.
  - destruct (IH (depth q)) as ((vx & Ex) & (vy & Ey) & (vz & Ez)).
    change ((q :: df) ++ [r]) with (q :: (df ++ [r])).
    rewrite !dX_from_cons, !dY_from_cons, !dZ_from_cons, Ex, Ey, Ez.
    repeat split; eexists; reflexivity.
Qed.

Lemma cumsum_from_snoc (acc : R) (a : list R) (v : R) :
  exists w, np.cumsum_from acc (a ++ [v]) = np.cumsum_from acc a ++ [w].
Proof.
  revert acc. induction a as [|x a IH]; intros acc.
  - now exists (acc + v).
  - destruct (IH (acc + x)) as (w & E). exists w. cbn. cbn in E.
    now rewrite E.
Qed.

Lemma stations_snoc (c : R) (a : list R) (v : R) :
  exists e, np.add_scalar c (np.cumsum (a ++ [v]))
            = np.add_scalar c (np.cumsum a) ++ [e].
Proof.
  rewrite !cumsum_from_0.
  destruct (cumsum_from_snoc 0 a v) as (w & ->).
  exists (c + w). unfold np.add_scalar. now rewrite map_app.
Qed.

(** One more station cannot shrink an extent. *)
Lemma extent_snoc (c : R) (a : list R) (e : R) :
  np.min c (a ++ [e]) <= np.min c a /\ np.max c a <= np.max c (a ++ [e]).
Proof.
  unfold np.min, np.max. rewrite !fold_left_app. cbn. unfold Rltb. split.
  - destruct (Rlt_dec _ e); lra.
  - destruct (Rlt_dec e _); lra.
Qed.

(** X8. In exact arithmetic, surveying further down never shrinks the
    box: when no two complete rows are equally deep, one more complete
    row, deeper than every one of them, gives the hole a box that
    encloses the box it had. *)
Theorem deeper_station_grows_box
    (cx cy cz : R) (rs : list (RawRow R)) (r : Row R) :
  List.NoDup (map depth (pd.dropna rs)) ->
  Forall (fun q => depth q < depth r) (pd.dropna rs) ->
  let rs' := rs ++ [mkRawRow (Some (depth r)) (Some (dip r)) (Some (azimuth r))] in
  encloses
    (_compute_hole_bounding_box cx cy cz
       (map raw_depth rs') (map raw_dip rs') (map raw_azimuth rs'))
    (_compute_hole_bounding_box cx cy cz
       (map raw_depth rs) (map raw_dip rs) (map raw_azimuth rs)).
Proof.
  intros Hdistinct Hdeep rs'.
  unfold _compute_hole_bounding_box, survey_rows.
  rewrite !DataFrame_columns. unfold rs'. rewrite dropna_app.
  assert (E : pd.dropna
                [mkRawRow (Some (depth r)) (Some (dip r)) (Some (azimuth r))]
              = [r]) by now destruct r.
  rewrite E, (sort_values_snoc _ r Hdistinct Hdeep).
  set (df := pd.sort_values (pd.dropna rs)).
  rewrite !integrate_extent. unfold xs, ys, zs, dX, dY, dZ; simpl tl.
  destruct (increments_snoc 0 df r) as ((vx & Ex) & (vy & Ey) & (vz & Ez)).
  change (@f64_zero R exact) with 0. rewrite Ex, Ey, Ez.
  destruct (stations_snoc cx (dX_from 0 df) vx) as (ex & ->).
  destruct (stations_snoc cy (dY_from 0 df) vy) as (ey & ->).
  destruct (stations_snoc cz (dZ_from 0 df) vz) as (ez & ->).
  unfold encloses; simpl.
  destruct (extent_snoc cx (np.add_scalar cx (np.cumsum (dX_from 0 df))) ex).
  destruct (extent_snoc cy (np.add_scalar cy (np.cumsum (dY_from 0 df))) ey).
  destruct (extent_snoc cz (np.add_scalar cz (np.cumsum (dZ_from 0 df))) ez).
  repeat split; assumption.
Qed.


(** ** The overall box of a collection *)

Lemma existsb_single {num : Type} (m : Adapter num) (cls : AdapterClass) :
  existsb (isinstance m) [cls] = isinstance m cls.
Proof. cbn [existsb]. apply orb_false_r. Qed.

Lemma existsb_distance {num : Type} (m : Adapter num) :
  existsb (isinstance m) [DistanceTable] = isinstance m DistanceTable.
Proof. cbn [existsb]. apply orb_false_r. Qed.

(** The boxes collected are those of the distance tables against the
    collars. *)
Lemma collect_bboxes_In {num : Type} {F64 : Float64 num}
    (self : DownholeCollection num) (b : BBox num) :
  In b (collect_bboxes (collars self)
          (get_measurement_tables self (Some [DistanceTable]))) <->
  exists mt c,
    In mt (measurements self) /\ isinstance mt DistanceTable = true /\
    In c (collars self) /\ b = hole_bbox mt c.
Proof.
  rewrite collect_bboxes_flat_map, in_flat_map, get_measurement_tables_filter.
  split.
  - intros (mt & Hmt & Hb). apply filter_In in Hmt. destruct Hmt as [Hmt Hd].
    apply in_map_iff in Hb. destruct Hb as (c & <- & Hc).
    exists mt, c. repeat split; try assumption.
    now rewrite existsb_distance in Hd.
  - intros (mt & c & Hmt & Hd & Hc & ->). exists mt. split.
    + apply filter_In. split; [assumption|]. now rewrite existsb_distance.
    + now apply in_map.
Qed.

(** X9. A table that is not a distance table does not count: adding it
    to a collection leaves the bounding box as it was, in every
    arithmetic. *)
Theorem interval_table_ignored {num : Type} {F64 : Float64 num}
    (self : DownholeCollection num) (m : Adapter num) :
  isinstance m DistanceTable = false ->
  get_bounding_box (add_measurement_table self m) = get_bounding_box self.
Proof.
  intros Hm. rewrite !get_bounding_box_unfold, !get_measurement_tables_filter.
  unfold add_measurement_table; cbn [measurements collars].
  rewrite filter_app. cbn [List.filter]. rewrite existsb_distance, Hm.
  now rewrite app_nil_r.
Qed.

(** X10. In exact arithmetic, where coordinates, depths and angles are
    real numbers, the bounding box depends on the set of tables and the
    set of collars only: neither their order nor a repetition changes
    it. *)
Theorem bounding_box_of_sets (s1 s2 : DownholeCollection R) :
  (forall m, In m (measurements s1) <-> In m (measurements s2)) ->
  (forall c, In c (collars s1) <-> In c (collars s2)) ->
  get_bounding_box s1 = get_bounding_box s2.
Proof.
  intros Hm Hc.
  assert (Hmem : forall b,
             In b (collect_bboxes (collars s1)
                     (get_measurement_tables s1 (Some [DistanceTable]))) <->
             In b (collect_bboxes (collars s2)
                     (get_measurement_tables s2 (Some [DistanceTable])))).
  { intros b. rewrite !collect_bboxes_In.
    split; intros (mt & c & H1 & H2 & H3 & H4); exists mt, c;
      repeat split; try assumption; first [now apply Hm | now apply Hc]. }
  rewrite !get_bounding_box_unfold.
  destruct (collect_bboxes (collars s1) _) as [|b1 l1] eqn:E1;
    destruct (collect_bboxes (collars s2) _) as [|b2 l2] eqn:E2.
  - reflexivity.
  - exfalso. apply (proj2 (Hmem b2)). now left.
  - exfalso. apply (proj1 (Hmem b1)). now left.
  - now apply combine_same_members.
Qed.

(** The collars and the tables of the sample in another order, the
    table twice. *)
Lemma bounding_box_of_sets_sample :
  get_bounding_box
    {| name := "again";
       collars := collars dipless_collection;
       measurements := [dipless_table; dipless_table] |}
  = get_bounding_box dipless_collection.
Proof.
  apply bounding_box_of_sets; simpl; intros; tauto.
Defined.

(** X11. In exact arithmetic, one more table never shrinks the
    bounding box: when a collection has a box, the collection with
    another table added, one whose queries return their series, has a
    box that encloses it. *)
Theorem added_table_grows_box
    (self : DownholeCollection R) (m : Adapter R) (B : BBox R) :
  get_bounding_box self = Ok (as_list B) ->
  exists B',
    get_bounding_box (add_measurement_table self m) = Ok (as_list B') /\
    encloses B' B.
Proof.
  intros E. rewrite get_bounding_box_unfold in E.
  destruct (collect_bboxes (collars self) _) as [|b0 bs] eqn:Eb;
    [discriminate|].
  assert (Hincl : forall b,
             In b (b0 :: bs) ->
             In b (collect_bboxes (collars (add_measurement_table self m))
                     (get_measurement_tables (add_measurement_table self m)
                        (Some [DistanceTable])))).
  { intros b Hb. rewrite <- Eb in Hb. apply collect_bboxes_In in Hb.
    apply collect_bboxes_In.
    destruct Hb as (mt & c & H1 & H2 & H3 & H4). exists mt, c.
    repeat split; try assumption. simpl. apply in_or_app. now left. }
  rewrite get_bounding_box_unfold.
  destruct (collect_bboxes (collars (add_measurement_table self m)) _)
    as [|b0' bs'] eqn:Eb'.
  { exfalso. apply (Hincl b0). now left. }
  destruct (combine_box (b0' :: bs')) as (B' & E'); [discriminate|].
  exists B'. split; [exact E'|].
  apply (proj2 (combine_bounds _ B E)).
  intros b Hb. apply (proj1 (combine_bounds _ B' E')). now apply Hincl.
Qed.

(** The sample collection with its table added once more. *)
Lemma added_table_grows_box_sample :
  exists B',
    get_bounding_box (add_measurement_table dipless_collection dipless_table)
    = Ok (as_list B') /\
    encloses B' (point_box 1 2 3).
Proof.
  apply (added_table_grows_box dipless_collection dipless_table).
  reflexivity.
Defined.


(** ** Tables of a collection *)

(** X12. Adding a table and then asking for the tables gives the tables
    there were, followed by the new one when it passes the filter; the
    collars are untouched. This holds in every arithmetic. *)
Theorem get_after_add {num : Type}
    (self : DownholeCollection num) (m : Adapter num) :
  get_measurement_tables (add_measurement_table self m) None
  = get_measurement_tables self None ++ [m] /\
  (forall classes,
      get_measurement_tables (add_measurement_table self m) (Some classes)
      = get_measurement_tables self (Some classes)
        ++ (if existsb (isinstance m) classes then [m] else [])) /\
  collars (add_measurement_table self m) = collars self.
Proof.
  split; [reflexivity | split; [|reflexivity]].
  intros classes. rewrite !get_measurement_tables_filter.
  unfold add_measurement_table; cbn [measurements].
  now rewrite filter_app.
Qed.

(** X14. Asking for [MeasurementTableAdapter] gives every table, asking
    for no class gives none, and when every table is a [DistanceTable] or
    an [IntervalTable] the two filters split the tables between them:
    together they hold each table once. *)
Theorem filters_partition {num : Type} (self : DownholeCollection num) :
  get_measurement_tables self (Some [MeasurementTableAdapter])
  = measurements self /\
  get_measurement_tables self (Some []) = [] /\
  (Forall (fun m => class_of m <> MeasurementTableAdapter) (measurements self) ->
   Permutation
     (get_measurement_tables self (Some [DistanceTable])
      ++ get_measurement_tables self (Some [IntervalTable]))
     (measurements self)).
Proof.
  rewrite !get_measurement_tables_filter.
  split; [|split].
  - induction (measurements self) as [|m ms IH]; [reflexivity|].
    cbn [List.filter]. rewrite existsb_single, IH.
    unfold isinstance. now destruct (class_of m).
  - induction (measurements self) as [|m ms IH]; [reflexivity | exact IH].
  - induction 1 as [|m ms Hm _ IH]; [constructor|].
    cbn [List.filter]. rewrite !existsb_single. unfold isinstance.
    destruct (class_of m); cbn [issubclass].
    + congruence.
    + cbn. now constructor.
    + apply Permutation_sym. apply Permutation_cons_app.
      now apply Permutation_sym.
Qed.

(** The sample collection with an interval table added. *)
Lemma filters_partition_sample :
  Permutation
    (get_measurement_tables
       (add_measurement_table dipless_collection empty_interval_table)
       (Some [DistanceTable])
     ++ get_measurement_tables
          (add_measurement_table dipless_collection empty_interval_table)
          (Some [IntervalTable]))
    [dipless_table; empty_interval_table].
Proof.
  apply (proj2 (proj2 (filters_partition
           (add_measurement_table dipless_collection empty_interval_table)))).
  repeat constructor; discriminate.
Defined.

(** An interval table added to the sample collection leaves its box. *)
Lemma interval_table_ignored_sample :
  get_bounding_box (add_measurement_table dipless_collection empty_interval_table)
  = get_bounding_box dipless_collection.
Proof.
  apply (interval_table_ignored dipless_collection empty_interval_table).
  reflexivity.
Defined.

(** ** Building a collection *)

Section ConstructionFacts.

Context {num frame mapping error : Type}.
Variable create : frame -> mapping -> error + Adapter num.
Variable ColumnMapping : mapping.

Lemma add_all_raised (cm : option mapping) (ms : list (TableInput frame num))
    (e : error) :
  init.add_all create ColumnMapping (inl e) ms cm = inl e.
Proof. induction ms as [|m ms IH]; [reflexivity | exact IH]. Qed.

Lemma add_all_cons (cm : option mapping) (m : TableInput frame num)
    (ms : list (TableInput frame num)) (self : DownholeCollection num) :
  init.add_all create ColumnMapping (inr self) (m :: ms) cm
  = init.add_all create ColumnMapping
      (init.add_measurement_table create ColumnMapping self m cm) ms cm.
Proof. reflexivity. Qed.

(** When the loop of [__init__] ends, every input has been converted, in
    order, behind the tables there were. *)
Lemma add_all_done (cm : option mapping) (ms : list (TableInput frame num))
    (self c : DownholeCollection num) :
  init.add_all create ColumnMapping (inr self) ms cm = inr c ->
  name c = name self /\ collars c = collars self /\
  exists adapters,
    measurements c = measurements self ++ adapters /\
    Forall2 (fun m a => init.adapter_of create ColumnMapping m cm = inr a)
            ms adapters.
Proof.
  revert self. induction ms as [|m ms IH]; intros self E.
  - inversion E; subst. repeat split. exists []. split.
    + now rewrite app_nil_r.
    + constructor.
  - rewrite add_all_cons in E. unfold init.add_measurement_table in E.
    destruct (init.adapter_of create ColumnMapping m cm) as [e | a] eqn:Ea.
    + rewrite add_all_raised in E. discriminate.
    + destruct (IH _ E) as (Hn & Hc & ads & Hm & Hall).
      cbn in Hn, Hc, Hm. repeat split; try assumption.
      exists (a :: ads). split.
      * rewrite Hm, <- app_assoc. reflexivity.
      * now constructor.
Qed.

(** When it raises, it raises what the first input that does not
    convert raises. *)
Lemma add_all_failed (cm : option mapping) (ms : list (TableInput frame num))
    (self : DownholeCollection num) (e : error) :
  init.add_all create ColumnMapping (inr self) ms cm = inl e ->
  exists before m after,
    ms = before ++ m :: after /\
    init.adapter_of create ColumnMapping m cm = inl e /\
    Forall (fun m' => exists a,
                init.adapter_of create ColumnMapping m' cm = inr a) before.
Proof.
  revert self. induction ms as [|m ms IH]; intros self E; [discriminate|].
  rewrite add_all_cons in E. unfold init.add_measurement_table in E.
  destruct (init.adapter_of create ColumnMapping m cm) as [e' | a] eqn:Ea.
  - rewrite add_all_raised in E. inversion E; subst.
    exists [], m, ms. repeat split; [assumption | constructor].
  - destruct (IH _ E) as (before & m' & after & -> & Hm' & Hb).
    exists (m :: before), m', after. repeat split; try assumption.
    constructor; [now exists a | assumption].
Qed.

Lemma add_all_adapters (cm : option mapping) (adapters : list (Adapter num))
    (self : DownholeCollection num) :
  init.add_all create ColumnMapping (inr self) (map FromAdapter adapters) cm
  = inr {| name := name self; collars := collars self;
           measurements := measurements self ++ adapters |}.
Proof.
  revert self. induction adapters as [|a ads IH]; intros self.
  - cbn. rewrite app_nil_r. now destruct self.
  - cbn [map]. rewrite add_all_cons. unfold init.add_measurement_table.
    cbn [init.adapter_of]. rewrite IH. cbn. now rewrite <- app_assoc.
Qed.

(** X13. [__init__] converts the measurement inputs in order: when it
    returns, the collection has the given name and collars and one
    adapter per input, the adapter its input stands for; when it raises,
    the error is that of the first input the factory rejects. Adapters
    given as such are kept as they are, and no list or an empty one gives
    a collection without tables. *)
Theorem init_measurements
    (cs : list (Collar num)) (n : string)
    (ms : option (list (TableInput frame num))) (cm : option mapping) :
  (forall c,
      init.__init__ create ColumnMapping cs n ms cm = inr c ->
      name c = n /\ collars c = cs /\
      Forall2 (fun m a => init.adapter_of create ColumnMapping m cm = inr a)
              (match ms with Some l => l | None => [] end)
              (get_measurement_tables c None)) /\
  (forall e,
      init.__init__ create ColumnMapping cs n ms cm = inl e ->
      exists before m after,
        ms = Some (before ++ m :: after) /\
        init.adapter_of create ColumnMapping m cm = inl e /\
        Forall (fun m' => exists a,
                    init.adapter_of create ColumnMapping m' cm = inr a)
               before) /\
  (forall adapters,
      ms = Some (map FromAdapter adapters) ->
      init.__init__ create ColumnMapping cs n ms cm
      = inr {| name := n; collars := cs; measurements := adapters |}).
Proof.
  split; [|split].
  - intros c E. unfold init.__init__ in E.
    destruct ms as [[|m l]|].
    + inversion E; subst. repeat split. constructor.
    + apply add_all_done in E. destruct E as (Hn & Hc & ads & Hm & Hall).
      cbn in Hn, Hc, Hm. repeat split; try assumption.
      unfold get_measurement_tables. now rewrite Hm.
    + inversion E; subst. repeat split. constructor.
  - intros e E. unfold init.__init__ in E.
    destruct ms as [[|m l]|]; try discriminate.
    apply add_all_failed in E.
    destruct E as (before & m' & after & E & H1 & H2).
    exists before, m', after. repeat split; try assumption. now rewrite E.
  - intros adapters ->. unfold init.__init__.
    destruct adapters as [|a ads]; [reflexivity|].
    exact (add_all_adapters cm (a :: ads)
             {| name := n; collars := cs; measurements := [] |}).
Qed.

End ConstructionFacts.

(** A frame the factory accepts after an adapter, and a frame it
    rejects. *)
Lemma init_measurements_sample :
  (exists c,
      init.__init__ even_factory tt [] "two"
        (Some [FromAdapter dipless_table; FromDataFrame 4%nat]) None = inr c /\
      Forall2 (fun m a => init.adapter_of even_factory tt m None = inr a)
              [FromAdapter dipless_table; FromDataFrame 4%nat]
              (get_measurement_tables c None)) /\
  init.__init__ even_factory tt [] "odd"
    (Some [FromAdapter dipless_table; FromDataFrame 3%nat]) None
  = inl "odd"%string.
Proof.
  split.
  - eexists. split; [reflexivity|].
    apply (proj1 (init_measurements even_factory tt [] "two"
                    (Some [FromAdapter dipless_table; FromDataFrame 4%nat])
                    None) _ eq_refl).
  - reflexivity.
Defined.


(** ** GEF headers of CPT data *)

Section CPTFacts.

Context {base dict other file : Type}.
Variable rebuild : base -> base.
Variable base_read_cpt_xml : file -> list base.

(** X15. The setter of [gef_headers] accepts [None] and dicts and
    nothing else: given one of them it stores it, so that the getter
    returns it, and leaves the fields of the dataclass alone; given
    anything else it raises [TypeError]. The constructor stores what it
    is given without that check. *)
Theorem gef_headers_setter (self : cpt.CPTData base dict other)
    (v : cpt.value dict other) :
  ((v = cpt.PyNone \/ exists d, v = cpt.PyDict d) ->
   exists self',
     cpt.set_gef_headers self v = inr self' /\
     cpt.gef_headers self' = v /\ cpt.fields self' = cpt.fields self) /\
  ((exists o, v = cpt.PyOther o) ->
   cpt.set_gef_headers self v
   = inl (cpt.TypeError "gef_headers must be a dict or None")) /\
  cpt.gef_headers (cpt.__init__ (cpt.fields self) v) = v.
Proof.
  split; [|split].
  - intros [-> | (d & ->)]; eexists; repeat split.
  - intros (o & ->). reflexivity.
  - reflexivity.
Qed.

Lemma read_cpt_xml_map (f : file) :
  cpt.read_cpt_xml (dict := dict) (other := other) rebuild base_read_cpt_xml f
  = map (fun cpt_data => cpt.from_base rebuild cpt_data cpt.PyNone)
        (base_read_cpt_xml f).
Proof.
  unfold cpt.read_cpt_xml. destruct (base_read_cpt_xml f); reflexivity.
Qed.

(** X16. [read_cpt_xml] returns one [CPTData] for each item the XML
    reader returns, in order, built from the fields of that item and
    without GEF headers. *)
Theorem read_cpt_xml_items (f : file) :
  map cpt.fields (cpt.read_cpt_xml (dict := dict) (other := other)
                    rebuild base_read_cpt_xml f)
  = map rebuild (base_read_cpt_xml f) /\
  Forall (fun c => cpt.gef_headers c = cpt.PyNone (dict := dict) (other := other))
         (cpt.read_cpt_xml rebuild base_read_cpt_xml f) /\
  length (cpt.read_cpt_xml (dict := dict) (other := other)
            rebuild base_read_cpt_xml f)
  = length (base_read_cpt_xml f).
Proof.
  rewrite read_cpt_xml_map. split; [|split].
  - rewrite map_map. reflexivity.
  - apply Forall_map. apply Forall_forall. intros b _. reflexivity.
  - apply length_map.
Qed.

End CPTFacts.

(** ** The unit tables *)

(** A literal without a repeated key holds exactly its items. *)
Lemma fold_insert_lookup (items : list (string * string))
    (acc : gmap string string) (k u : string) :
  List.NoDup (map fst items) ->
  fold_left (fun d item => <[item.1 := item.2]> d) items acc !! k = Some u <->
  In (k, u) items \/ (~ In k (map fst items) /\ acc !! k = Some u).
Proof.
  revert acc. induction items as [|[k0 u0] items IH]; intros acc Hnd.
  - simpl. tauto.
  - inversion Hnd as [|? ? Hnotin Hnd']; subst. cbn [fold_left map fst].
    rewrite (IH _ Hnd'). cbn [fst snd]. split.
    + intros [Hin | [Hk Hacc]].
      * left. now right.
      * destruct (decide (k0 = k)) as [-> | Hne].
        -- rewrite lookup_insert_eq in Hacc. inversion Hacc; subst.
           left. now left.
        -- rewrite lookup_insert_ne in Hacc by assumption.
           right. split; [|assumption]. simpl. intros [E | Hin]; tauto.
    + intros [[E | Hin] | [Hk Hacc]].
      * inversion E; subst. right. split; [assumption|].
        apply lookup_insert_eq.
      * now left.
      * right. simpl in Hk. split; [tauto|].
        rewrite lookup_insert_ne; [assumption | tauto].
Qed.

Lemma dict_literal_lookup (items : list (string * string)) (k u : string) :
  List.NoDup (map fst items) ->
  dict_literal items !! k = Some u <-> In (k, u) items.
Proof.
  intros Hnd. unfold dict_literal. rewrite (fold_insert_lookup _ _ _ _ Hnd).
  rewrite lookup_empty. split; [intros [H | [_ H]] | intros H].
  - assumption.
  - discriminate.
  - now left.
Qed.

Lemma gef_keys_distinct :
  List.NoDup (map fst gef_spec.MEASUREMENT_UNITS_items).
Proof.
  apply NoDup_ListNoDup.
  apply (bool_decide_unpack (base.NoDup (map fst gef_spec.MEASUREMENT_UNITS_items))).
  vm_compute. reflexivity.
Qed.

Lemma ags_keys_distinct :
  List.NoDup (map fst ags_spec.MEASUREMENT_UNITS_items).
Proof.
  apply NoDup_ListNoDup.
  apply (bool_decide_unpack (base.NoDup (map fst ags_spec.MEASUREMENT_UNITS_items))).
  vm_compute. reflexivity.
Qed.

(** X17. No key is written twice in the GEF table, so a column has a
    unit in it exactly when the literal lists the column with that unit;
    and the columns listed with the empty unit, the dimensionless ones,
    are [poreRatio] and [coneResistanceRatio]. *)
Theorem gef_units (k : string) :
  (forall u,
      gef_spec.MEASUREMENT_UNITS !! k = Some u <->
      In (k, u) gef_spec.MEASUREMENT_UNITS_items) /\
  (gef_spec.MEASUREMENT_UNITS !! k = Some ""%string <->
   k = "poreRatio"%string \/ k = "coneResistanceRatio"%string).
Proof.
  assert (H : forall u,
             gef_spec.MEASUREMENT_UNITS !! k = Some u <->
             In (k, u) gef_spec.MEASUREMENT_UNITS_items).
  { intros u. apply dict_literal_lookup, gef_keys_distinct. }
  split; [exact H|]. rewrite H. split.
  - intros Hin. unfold gef_spec.MEASUREMENT_UNITS_items in Hin.
    repeat (destruct Hin as [E | Hin];
            [inversion E; subst; try discriminate; auto|]).
    destruct Hin.
  - intros [-> | ->]; unfold gef_spec.MEASUREMENT_UNITS_items;
      apply list_elem_of_In; apply (bool_decide_unpack _); vm_compute; reflexivity.
Qed.

(** X18. No key is written twice in the AGS table, so a column has a
    unit in it exactly when the literal lists the column with that unit;
    and no column is listed with the empty unit: the dimensionless ones
    are left out. *)
Theorem ags_units (k u : string) :
  (ags_spec.MEASUREMENT_UNITS !! k = Some u <->
   In (k, u) ags_spec.MEASUREMENT_UNITS_items) /\
  (ags_spec.MEASUREMENT_UNITS !! k = Some u -> u <> ""%string).
Proof.
  assert (H : ags_spec.MEASUREMENT_UNITS !! k = Some u <->
              In (k, u) ags_spec.MEASUREMENT_UNITS_items)
    by apply dict_literal_lookup, ags_keys_distinct.
  split; [exact H|]. rewrite H. intros Hin.
  assert (Hall : Forall (fun item => item.2 <> ""%string)
                   ags_spec.MEASUREMENT_UNITS_items)
    by (repeat constructor; discriminate).
  rewrite Forall_forall in Hall. exact (Hall _ Hin).
Qed.


(** ** Samples of the further properties *)

Lemma combine_box_a_b :
  _combine_bounding_boxes [box_a; box_b]
  = Ok (as_list (mkBBox (-2) 1 0 4 80 100)).
Proof.
  unfold _combine_bounding_boxes, as_list, box_a, box_b, py_min, py_max.
  cbn. unfold Rltb.
  repeat match goal with
         | |- context [Rlt_dec ?a ?b] => destruct (Rlt_dec a b); try lra
         end.
  reflexivity.
Qed.

Lemma combine_box_c :
  _combine_bounding_boxes [box_c] = Ok (as_list box_c).
Proof. reflexivity. Qed.

(** The three sample boxes, the first two combined beforehand. *)
Lemma combine_app_sample :
  _combine_bounding_boxes ([box_a; box_b] ++ [box_c])
  = _combine_bounding_boxes [mkBBox (-2) 1 0 4 80 100; box_c].
Proof.
  apply (combine_app [box_a; box_b] [box_c] _ _ combine_box_a_b combine_box_c).
Defined.

(** The segment between the two stations of a hole, at depths 5 and
    15. *)
Lemma segment_length_sample :
  (nth 1 (dX [mkRow 5 0 0; mkRow 15 30 90]) 0)²
  + (nth 1 (dY [mkRow 5 0 0; mkRow 15 30 90]) 0)²
  + (nth 1 (dZ [mkRow 5 0 0; mkRow 15 30 90]) 0)²
  = (nth 1 (map depth [mkRow 5 0 0; mkRow 15 30 90]) 0
     - nth 1 (0 :: map depth [mkRow 5 0 0; mkRow 15 30 90]) 0)².
Proof.
  apply (segment_length [mkRow 5 0 0; mkRow 15 30 90] 1).
  simpl. lia.
Defined.

(** The horizontal station due North at depth 10: its first row has no
    dip. *)
Lemma single_station_box_sample :
  _compute_hole_bounding_box 0 0 0 north_depths north_dips north_azimuths
  = {| xmin := Rmin 0 (0 + 10 * sin (90 * (PI / 180)) * sin (0 * (PI / 180)));
       xmax := Rmax 0 (0 + 10 * sin (90 * (PI / 180)) * sin (0 * (PI / 180)));
       ymin := Rmin 0 (0 + 10 * sin (90 * (PI / 180)) * cos (0 * (PI / 180)));
       ymax := Rmax 0 (0 + 10 * sin (90 * (PI / 180)) * cos (0 * (PI / 180)));
       zmin := Rmin 0 (0 - 10 * cos (90 * (PI / 180)));
       zmax := Rmax 0 (0 - 10 * cos (90 * (PI / 180))) |}.
Proof.
  apply (single_station_box 0 0 0 10 90 0
           north_depths north_dips north_azimuths).
  reflexivity.
Defined.

(** The sample rows and one more at depth 20. *)
Lemma deeper_station_grows_box_sample :
  encloses
    (_compute_hole_bounding_box 0 0 100
       (map raw_depth (unsorted_rows ++ [mkRawRow (Some 20) (Some 45) (Some 0)]))
       (map raw_dip (unsorted_rows ++ [mkRawRow (Some 20) (Some 45) (Some 0)]))
       (map raw_azimuth (unsorted_rows ++ [mkRawRow (Some 20) (Some 45) (Some 0)])))
    (_compute_hole_bounding_box 0 0 100
       (map raw_depth unsorted_rows) (map raw_dip unsorted_rows)
       (map raw_azimuth unsorted_rows)).
Proof.
  apply (deeper_station_grows_box 0 0 100 unsorted_rows (mkRow 20 45 0)).
  - simpl. repeat constructor; simpl; intros H; decompose [or] H; lra.
  - simpl. repeat constructor; simpl; lra.
Defined.

(** Headers set to a dict on CPT data built without any. *)
Lemma gef_headers_setter_sample :
  exists self',
    cpt.set_gef_headers (cpt.mkCPTData 1%nat None)
      (cpt.PyDict (other := bool) "#GEFID"%string) = inr self' /\
    cpt.gef_headers self' = cpt.PyDict "#GEFID"%string /\
    cpt.fields self' = 1%nat.
Proof.
  apply (proj1 (gef_headers_setter (cpt.mkCPTData 1%nat None)
                  (cpt.PyDict "#GEFID"%string))).
  right. now exists "#GEFID"%string.
Defined.

(** The cone resistance of AGS is in MPa. *)
Lemma ags_units_sample :
  ags_spec.MEASUREMENT_UNITS !! "SCPT_RES"%string = Some "MPa"%string /\
  "MPa"%string <> ""%string.
Proof.
  split.
  - vm_compute. reflexivity.
  - apply (proj2 (ags_units "SCPT_RES" "MPa")). vm_compute. reflexivity.
Defined.
